(** * Terminal presentation model of fzf: colors, themes, events

    A shallow embedding of [src/tui/tui.go] (the richer of the two
    variants: the one with the SelectedFg, Separator and Scrollbar slots
    and the jump and header-click events), followed by the properties of
    its color algebra, theme resolution, palette derivation, key naming
    and hex color parsing.

    Go's fixed-width integers are integers of [Z] with the wrap-around
    written out; Go strings are byte strings, here [string] whose
    characters are the bytes. *)

From Stdlib Require Import ZArith Bool List String Ascii Lia.
Import ListNotations.
Local Open Scope string_scope.
Local Open Scope Z_scope.

(** ** Fixed-width integers *)

(** Two's-complement reduction of [x] to a signed [w]-bit integer. *)
Definition wrap (w : Z) (x : Z) : Z :=
  (x + 2 ^ (w - 1)) mod 2 ^ w - 2 ^ (w - 1).

Definition int32 (x : Z) : Z := wrap 32 x.
Definition int64 (x : Z) : Z := wrap 64 x.
Definition uint64 (x : Z) : Z := x mod 2 ^ 64.

(** The value of a byte of a string. *)
Definition byte (c : ascii) : Z := Z.of_N (N_of_ascii c).
Definition chr (b : Z) : ascii := ascii_of_N (Z.to_N b).

(** ** EventModel *)

(** [type EventType int] with its constant block; the position of a
    constant in the block is its [iota] value, given by [Int].  Values of
    the underlying [int] outside the block are not represented. *)
Inductive EventType : Set :=
  | Rune | CtrlA | CtrlB | CtrlC | CtrlD | CtrlE | CtrlF | CtrlG | CtrlH
  | Tab | CtrlJ | CtrlK | CtrlL | CtrlM | CtrlN | CtrlO | CtrlP | CtrlQ
  | CtrlR | CtrlS | CtrlT | CtrlU | CtrlV | CtrlW | CtrlX | CtrlY | CtrlZ
  | Esc | CtrlSpace | CtrlDelete | CtrlBackSlash | CtrlRightBracket
  | CtrlCaret | CtrlSlash | ShiftTab | Backspace | Delete | PageUp
  | PageDown | Up | Down | Left | Right | Home | End | Insert | ShiftUp
  | ShiftDown | ShiftLeft | ShiftRight | ShiftDelete | F1 | F2 | F3 | F4
  | F5 | F6 | F7 | F8 | F9 | F10 | F11 | F12 | AltBackspace | AltUp
  | AltDown | AltLeft | AltRight | AltShiftUp | AltShiftDown | AltShiftLeft
  | AltShiftRight | Alt | CtrlAlt | Invalid | Fatal | Mouse | DoubleClick
  | LeftClick | RightClick | SLeftClick | SRightClick | ScrollUp
  | ScrollDown | SScrollUp | SScrollDown | PreviewScrollUp
  | PreviewScrollDown | Resize | Change | BackwardEOF | Start | Load | Focus
  | One | Zero | Result | Jump | JumpCancel | ClickHeader.

Definition Int (t : EventType) : Z :=
  match t with
  | Rune => 0 | CtrlA => 1 | CtrlB => 2 | CtrlC => 3 | CtrlD => 4
  | CtrlE => 5 | CtrlF => 6 | CtrlG => 7 | CtrlH => 8 | Tab => 9
  | CtrlJ => 10 | CtrlK => 11 | CtrlL => 12 | CtrlM => 13 | CtrlN => 14
  | CtrlO => 15 | CtrlP => 16 | CtrlQ => 17 | CtrlR => 18 | CtrlS => 19
  | CtrlT => 20 | CtrlU => 21 | CtrlV => 22 | CtrlW => 23 | CtrlX => 24
  | CtrlY => 25 | CtrlZ => 26 | Esc => 27 | CtrlSpace => 28
  | CtrlDelete => 29 | CtrlBackSlash => 30 | CtrlRightBracket => 31
  | CtrlCaret => 32 | CtrlSlash => 33 | ShiftTab => 34 | Backspace => 35
  | Delete => 36 | PageUp => 37 | PageDown => 38 | Up => 39 | Down => 40
  | Left => 41 | Right => 42 | Home => 43 | End => 44 | Insert => 45
  | ShiftUp => 46 | ShiftDown => 47 | ShiftLeft => 48 | ShiftRight => 49
  | ShiftDelete => 50 | F1 => 51 | F2 => 52 | F3 => 53 | F4 => 54 | F5 => 55
  | F6 => 56 | F7 => 57 | F8 => 58 | F9 => 59 | F10 => 60 | F11 => 61
  | F12 => 62 | AltBackspace => 63 | AltUp => 64 | AltDown => 65
  | AltLeft => 66 | AltRight => 67 | AltShiftUp => 68 | AltShiftDown => 69
  | AltShiftLeft => 70 | AltShiftRight => 71 | Alt => 72 | CtrlAlt => 73
  | Invalid => 74 | Fatal => 75 | Mouse => 76 | DoubleClick => 77
  | LeftClick => 78 | RightClick => 79 | SLeftClick => 80
  | SRightClick => 81 | ScrollUp => 82 | ScrollDown => 83 | SScrollUp => 84
  | SScrollDown => 85 | PreviewScrollUp => 86 | PreviewScrollDown => 87
  | Resize => 88 | Change => 89 | BackwardEOF => 90 | Start => 91
  | Load => 92 | Focus => 93 | One => 94 | Zero => 95 | Result => 96
  | Jump => 97 | JumpCancel => 98 | ClickHeader => 99
  end.

(** Modelled from the spec: the [String] method of [EventType] is
    generated by stringer into a file of its own, which is missing here;
    the spec calls its result the symbolic name of the kind, which is the
    name of the constant. *)
Definition EventType_String (t : EventType) : string :=
  match t with
  | Rune => "Rune" | CtrlA => "CtrlA" | CtrlB => "CtrlB" | CtrlC => "CtrlC"
  | CtrlD => "CtrlD" | CtrlE => "CtrlE" | CtrlF => "CtrlF"
  | CtrlG => "CtrlG" | CtrlH => "CtrlH" | Tab => "Tab" | CtrlJ => "CtrlJ"
  | CtrlK => "CtrlK" | CtrlL => "CtrlL" | CtrlM => "CtrlM"
  | CtrlN => "CtrlN" | CtrlO => "CtrlO" | CtrlP => "CtrlP"
  | CtrlQ => "CtrlQ" | CtrlR => "CtrlR" | CtrlS => "CtrlS"
  | CtrlT => "CtrlT" | CtrlU => "CtrlU" | CtrlV => "CtrlV"
  | CtrlW => "CtrlW" | CtrlX => "CtrlX" | CtrlY => "CtrlY"
  | CtrlZ => "CtrlZ" | Esc => "Esc" | CtrlSpace => "CtrlSpace"
  | CtrlDelete => "CtrlDelete" | CtrlBackSlash => "CtrlBackSlash"
  | CtrlRightBracket => "CtrlRightBracket" | CtrlCaret => "CtrlCaret"
  | CtrlSlash => "CtrlSlash" | ShiftTab => "ShiftTab"
  | Backspace => "Backspace" | Delete => "Delete" | PageUp => "PageUp"
  | PageDown => "PageDown" | Up => "Up" | Down => "Down" | Left => "Left"
  | Right => "Right" | Home => "Home" | End => "End" | Insert => "Insert"
  | ShiftUp => "ShiftUp" | ShiftDown => "ShiftDown"
  | ShiftLeft => "ShiftLeft" | ShiftRight => "ShiftRight"
  | ShiftDelete => "ShiftDelete" | F1 => "F1" | F2 => "F2" | F3 => "F3"
  | F4 => "F4" | F5 => "F5" | F6 => "F6" | F7 => "F7" | F8 => "F8"
  | F9 => "F9" | F10 => "F10" | F11 => "F11" | F12 => "F12"
  | AltBackspace => "AltBackspace" | AltUp => "AltUp" | AltDown => "AltDown"
  | AltLeft => "AltLeft" | AltRight => "AltRight"
  | AltShiftUp => "AltShiftUp" | AltShiftDown => "AltShiftDown"
  | AltShiftLeft => "AltShiftLeft" | AltShiftRight => "AltShiftRight"
  | Alt => "Alt" | CtrlAlt => "CtrlAlt" | Invalid => "Invalid"
  | Fatal => "Fatal" | Mouse => "Mouse" | DoubleClick => "DoubleClick"
  | LeftClick => "LeftClick" | RightClick => "RightClick"
  | SLeftClick => "SLeftClick" | SRightClick => "SRightClick"
  | ScrollUp => "ScrollUp" | ScrollDown => "ScrollDown"
  | SScrollUp => "SScrollUp" | SScrollDown => "SScrollDown"
  | PreviewScrollUp => "PreviewScrollUp"
  | PreviewScrollDown => "PreviewScrollDown" | Resize => "Resize"
  | Change => "Change" | BackwardEOF => "BackwardEOF" | Start => "Start"
  | Load => "Load" | Focus => "Focus" | One => "One" | Zero => "Zero"
  | Result => "Result" | Jump => "Jump" | JumpCancel => "JumpCancel"
  | ClickHeader => "ClickHeader"
  end.

(** The constants in the order of the block. *)
Definition allEventTypes : list EventType :=
  [Rune; CtrlA; CtrlB; CtrlC; CtrlD; CtrlE; CtrlF; CtrlG; CtrlH; Tab;
   CtrlJ; CtrlK; CtrlL; CtrlM; CtrlN; CtrlO; CtrlP; CtrlQ; CtrlR; CtrlS;
   CtrlT; CtrlU; CtrlV; CtrlW; CtrlX; CtrlY; CtrlZ; Esc; CtrlSpace;
   CtrlDelete; CtrlBackSlash; CtrlRightBracket; CtrlCaret; CtrlSlash;
   ShiftTab; Backspace; Delete; PageUp; PageDown; Up; Down; Left; Right;
   Home; End; Insert; ShiftUp; ShiftDown; ShiftLeft; ShiftRight;
   ShiftDelete; F1; F2; F3; F4; F5; F6; F7; F8; F9; F10; F11; F12;
   AltBackspace; AltUp; AltDown; AltLeft; AltRight; AltShiftUp;
   AltShiftDown; AltShiftLeft; AltShiftRight; Alt; CtrlAlt; Invalid; Fatal;
   Mouse; DoubleClick; LeftClick; RightClick; SLeftClick; SRightClick;
   ScrollUp; ScrollDown; SScrollUp; SScrollDown; PreviewScrollUp;
   PreviewScrollDown; Resize; Change; BackwardEOF; Start; Load; Focus; One;
   Zero; Result; Jump; JumpCancel; ClickHeader].

Record MouseEvent : Set := mkMouseEvent {
  mY : Z; mX : Z; mS : Z;
  mLeft : bool; mDown : bool; mDouble : bool; mMod : bool
}.

(** [type Event struct { Type; Char; MouseEvent }]: [Char] is a rune
    (int32), [MouseEvent] a pointer that may be nil. *)
Record Event : Set := mkEvent {
  evType : EventType;
  evChar : Z;
  evMouseEvent : option MouseEvent
}.

Definition AsEvent (t : EventType) : Event := mkEvent t 0 None.

Definition Comparable (e : Event) : Event :=
  mkEvent (evType e) (evChar e) None.

Definition Key (r : Z) : Event := mkEvent Rune r None.
Definition AltKey (r : Z) : Event := mkEvent Alt r None.
Definition CtrlAltKey (r : Z) : Event := mkEvent CtrlAlt r None.

(** Go's conversion [string(r)] of a rune: the UTF-8 encoding of [r],
    and that of U+FFFD when [r] is not a valid code point (negative,
    a surrogate half, or above U+10FFFF). *)
Definition RuneError : Z := 65533.
Definition MaxRune : Z := 1114111.

Definition encode3 (r : Z) : string :=
  String (chr (Z.lor 224 (Z.shiftr r 12)))
 (String (chr (Z.lor 128 (Z.land (Z.shiftr r 6) 63)))
 (String (chr (Z.lor 128 (Z.land r 63))) "")).

Definition runeToString (r : Z) : string :=
  if (r <? 0) || (r >? MaxRune) || ((55296 <=? r) && (r <=? 57343))
  then encode3 RuneError
  else if r <=? 127 then String (chr r) ""
  else if r <=? 2047 then
    String (chr (Z.lor 192 (Z.shiftr r 6)))
   (String (chr (Z.lor 128 (Z.land r 63))) "")
  else if r <=? 65535 then encode3 r
  else
    String (chr (Z.lor 240 (Z.shiftr r 18)))
   (String (chr (Z.lor 128 (Z.land (Z.shiftr r 12) 63)))
   (String (chr (Z.lor 128 (Z.land (Z.shiftr r 6) 63)))
   (String (chr (Z.lor 128 (Z.land r 63))) ""))).

(** Modelled from the spec: [util.ToKebabCase] is in package [util], which
    is missing here.  The spec calls it the kebab-case transform of a
    symbolic (CamelCase) name: a hyphen goes before every upper-case letter
    but a leading one, and the letters are lowered.  [isUpper], [toLower]
    and [kebab] are the parts of this model. *)
Definition isUpper (c : ascii) : bool :=
  (65 <=? byte c) && (byte c <=? 90).

Definition toLower (c : ascii) : ascii :=
  if isUpper c then chr (byte c + 32) else c.

Fixpoint kebab (first : bool) (s : string) : string :=
  match s with
  | EmptyString => EmptyString
  | String c rest =>
      if negb first && isUpper c
      then String "-" (String (toLower c) (kebab false rest))
      else String (toLower c) (kebab false rest)
  end.

(** Modelled from the spec: [util.ToKebabCase], missing here, as the
    kebab-case transform described above. *)
Definition ToKebabCase (s : string) : string := kebab true s.

(** [func (e Event) KeyName() string] *)
Definition KeyName (e : Event) : string :=
  if Int (evType e) >=? Int Invalid then ""
  else
    match evType e with
    | Rune => runeToString (evChar e)
    | Alt => ("alt-" ++ runeToString (evChar e))%string
    | CtrlAlt => ("ctrl-alt-" ++ runeToString (evChar e))%string
    | CtrlBackSlash => "ctrl-\"
    | CtrlRightBracket => "ctrl-]"
    | CtrlCaret => "ctrl-^"
    | CtrlSlash => "ctrl-/"
    | t => ToKebabCase (EventType_String t)
    end.

(** ** ColorModel *)

(** [type Color int32] *)
Definition Color : Set := Z.

Definition colUndefined : Color := -2.
Definition colDefault : Color := -1.

Definition colBlack : Color := 0.
Definition colRed : Color := 1.
Definition colGreen : Color := 2.
Definition colYellow : Color := 3.
Definition colBlue : Color := 4.
Definition colMagenta : Color := 5.
Definition colCyan : Color := 6.
Definition colWhite : Color := 7.

Definition IsDefault (c : Color) : bool := c =? colDefault.

Definition is24 (c : Color) : bool :=
  (c >? 0) && (Z.land c (Z.shiftl 1 24) >? 0).

(** The attribute type [Attr], its constants and [Attr.Merge] are declared
    by the renderer back ends, one per build, and not in tui.go.  tui.go
    only uses [Attr] as an integer bitmask (it applies [&] and [|] to it),
    so the code below is written against any back end. *)
Definition Attr : Set := Z.

Class AttrBackend : Set := {
  AttrUndefined : Attr;
  AttrRegular : Attr;
  Underline : Attr;
  Reverse : Attr;
  AttrMerge : Attr -> Attr -> Attr
}.

(** Modelled from the spec: a concrete back end, for evaluating the code
    on inputs.  The back-end declarations are missing from tui.go; the spec
    describes [Attr] as a bitmask of text attributes with a zero-ish
    undefined sentinel distinct from regular, and [Attr] merge as a union
    of the bitmask for which undefined is a no-op.  The spec does not fix
    the bit positions; the ones below are one choice of distinct bits. *)
Definition specBackend : AttrBackend := {|
  AttrUndefined := 0;
  AttrRegular := Z.shiftl 1 8;
  Underline := Z.shiftl 1 3;
  Reverse := Z.shiftl 1 6;
  AttrMerge := Z.lor
|}.

Record ColorAttr : Set := mkColorAttr {
  caColor : Color;
  caAttr : Attr;
  caBackgroundColor : Color
}.

Record ColorPair : Set := mkColorPair {
  fg : Color;
  bg : Color;
  attr : Attr
}.

(** *** Hex colors *)

(** Go's [strconv.ParseUint(s, 16, 0)] and [strconv.ParseInt(s, 16, 0)]
    on a platform whose [int] has 64 bits: the value and the error, of
    which HexToColor drops the second. *)
Inductive NumError : Set := ErrSyntax | ErrRange.

Definition lower (c : Z) : Z := Z.lor c 32.

(** The digit switch of the parse loop; [None] is its default branch. *)
Definition digit (c : Z) : option Z :=
  if (48 <=? c) && (c <=? 57) then Some (c - 48)
  else if (97 <=? lower c) && (lower c <=? 122) then Some (lower c - 97 + 10)
  else None.

Definition maxUint64 : Z := 2 ^ 64 - 1.

Fixpoint ParseUint_loop (base : Z) (s : string) (n : Z)
  : Z * option NumError :=
  match s with
  | EmptyString => (n, None)
  | String ch rest =>
      match digit (byte ch) with
      | None => (0, Some ErrSyntax)
      | Some d =>
          if d >=? base then (0, Some ErrSyntax)
          else if n >=? maxUint64 / base + 1 then (maxUint64, Some ErrRange)
          else
            let n' := uint64 (n * base) in
            let n1 := uint64 (n' + d) in
            if (n1 <? n') || (n1 >? maxUint64)
            then (maxUint64, Some ErrRange)
            else ParseUint_loop base rest n1
      end
  end.

Definition ParseUint (s : string) (base : Z) : Z * option NumError :=
  match s with
  | EmptyString => (0, Some ErrSyntax)
  | _ => ParseUint_loop base s 0
  end.

Definition ParseInt (s : string) (base : Z) : Z * option NumError :=
  match s with
  | EmptyString => (0, Some ErrSyntax)
  | String c rest =>
      let neg := byte c =? 45 in
      let s' := if (byte c =? 43) || neg then rest else s in
      match ParseUint s' base with
      | (_, Some ErrSyntax) => (0, Some ErrSyntax)
      | (un, _) =>
          let cutoff := 2 ^ 63 in
          if negb neg && (un >=? cutoff) then (cutoff - 1, Some ErrRange)
          else if neg && (un >? cutoff) then (- cutoff, Some ErrRange)
          else
            let n := int64 un in
            (if neg then int64 (- n) else n, None)
      end
  end.

(** The slice expression [s[lo:hi]] of a string; [None] is the run-time
    panic for bounds out of range. *)
Definition slice (s : string) (lo hi : nat) : option string :=
  if (hi <=? length s)%nat && (lo <=? hi)%nat
  then Some (substring lo (hi - lo) s)
  else None.

Definition bind {A B : Type} (x : option A) (f : A -> option B) : option B :=
  match x with
  | Some a => f a
  | None => None
  end.

Notation "x <- e ;; k" := (bind e (fun x => k))
  (at level 61, e at next level, right associativity).

(** [func HexToColor(rrggbb string) Color]; the sum is computed on
    int64 and converted to [Color]. *)
Definition HexToColor (rrggbb : string) : option Color :=
  rs <- slice rrggbb 1 3 ;;
  gs <- slice rrggbb 3 5 ;;
  bs <- slice rrggbb 5 7 ;;
  let r := fst (ParseInt rs 16) in
  let g := fst (ParseInt gs 16) in
  let b := fst (ParseInt bs 16) in
  Some (int32
    (int64 (int64 (int64 (Z.shiftl 1 24 + int64 (Z.shiftl r 16))
                   + int64 (Z.shiftl g 8)) + b))).

(** *** Color pairs *)

Definition NewColorAttr `{AttrBackend} : ColorAttr :=
  mkColorAttr colUndefined AttrUndefined colUndefined.

Definition NewColorPair (fg bg : Color) (attr : Attr) : ColorPair :=
  mkColorPair fg bg attr.

Definition HasBg `{AttrBackend} (p : ColorPair) : bool :=
  (Z.land (attr p) Reverse =? 0) && negb (bg p =? colDefault)
  || (Z.land (attr p) Reverse >? 0) && negb (fg p =? colDefault).

Definition merge `{AttrBackend} (p other : ColorPair) (except : Color)
  : ColorPair :=
  let dup := p in
  let dup :=
    mkColorPair (fg dup) (bg dup) (AttrMerge (attr dup) (attr other)) in
  let dup := if negb (fg other =? except)
             then mkColorPair (fg other) (bg dup) (attr dup) else dup in
  let dup := if negb (bg other =? except)
             then mkColorPair (fg dup) (bg other) (attr dup) else dup in
  dup.

Definition WithAttr `{AttrBackend} (p : ColorPair) (a : Attr) : ColorPair :=
  let dup := p in
  mkColorPair (fg dup) (bg dup) (AttrMerge (attr dup) a).

Definition MergeAttr `{AttrBackend} (p other : ColorPair) : ColorPair :=
  WithAttr p (attr other).

Definition Merge `{AttrBackend} (p other : ColorPair) : ColorPair :=
  merge p other colUndefined.

Definition MergeNonDefault `{AttrBackend} (p other : ColorPair) : ColorPair :=
  merge p other colDefault.

(** ** ThemeEngine *)

Record ColorTheme : Set := mkColorTheme {
  Colored : bool;
  Input : ColorAttr;
  Disabled : ColorAttr;
  Fg : ColorAttr;
  Bg : ColorAttr;
  SelectedFg : ColorAttr;
  SelectedBg : ColorAttr;
  SelectedMatch : ColorAttr;
  PreviewFg : ColorAttr;
  PreviewBg : ColorAttr;
  DarkBg : ColorAttr;
  Gutter : ColorAttr;
  Prompt : ColorAttr;
  Match : ColorAttr;
  Current : ColorAttr;
  CurrentMatch : ColorAttr;
  Spinner : ColorAttr;
  Info : ColorAttr;
  Cursor : ColorAttr;
  Marker : ColorAttr;
  Header : ColorAttr;
  Separator : ColorAttr;
  Scrollbar : ColorAttr;
  Border : ColorAttr;
  PreviewBorder : ColorAttr;
  PreviewScrollbar : ColorAttr;
  BorderLabel : ColorAttr;
  PreviewLabel : ColorAttr
}.

Definition set_Input (t : ColorTheme) (v : ColorAttr) : ColorTheme :=
  mkColorTheme (Colored t) v (Disabled t) (Fg t) (Bg t) (SelectedFg t)
    (SelectedBg t) (SelectedMatch t) (PreviewFg t) (PreviewBg t) (DarkBg t)
    (Gutter t) (Prompt t) (Match t) (Current t) (CurrentMatch t) (Spinner t)
    (Info t) (Cursor t) (Marker t) (Header t) (Separator t) (Scrollbar t)
    (Border t) (PreviewBorder t) (PreviewScrollbar t) (BorderLabel t)
    (PreviewLabel t).

Definition set_Disabled (t : ColorTheme) (v : ColorAttr) : ColorTheme :=
  mkColorTheme (Colored t) (Input t) v (Fg t) (Bg t) (SelectedFg t)
    (SelectedBg t) (SelectedMatch t) (PreviewFg t) (PreviewBg t) (DarkBg t)
    (Gutter t) (Prompt t) (Match t) (Current t) (CurrentMatch t) (Spinner t)
    (Info t) (Cursor t) (Marker t) (Header t) (Separator t) (Scrollbar t)
    (Border t) (PreviewBorder t) (PreviewScrollbar t) (BorderLabel t)
    (PreviewLabel t).

Definition set_Fg (t : ColorTheme) (v : ColorAttr) : ColorTheme :=
  mkColorTheme (Colored t) (Input t) (Disabled t) v (Bg t) (SelectedFg t)
    (SelectedBg t) (SelectedMatch t) (PreviewFg t) (PreviewBg t) (DarkBg t)
    (Gutter t) (Prompt t) (Match t) (Current t) (CurrentMatch t) (Spinner t)
    (Info t) (Cursor t) (Marker t) (Header t) (Separator t) (Scrollbar t)
    (Border t) (PreviewBorder t) (PreviewScrollbar t) (BorderLabel t)
    (PreviewLabel t).

Definition set_Bg (t : ColorTheme) (v : ColorAttr) : ColorTheme :=
  mkColorTheme (Colored t) (Input t) (Disabled t) (Fg t) v (SelectedFg t)
    (SelectedBg t) (SelectedMatch t) (PreviewFg t) (PreviewBg t) (DarkBg t)
    (Gutter t) (Prompt t) (Match t) (Current t) (CurrentMatch t) (Spinner t)
    (Info t) (Cursor t) (Marker t) (Header t) (Separator t) (Scrollbar t)
    (Border t) (PreviewBorder t) (PreviewScrollbar t) (BorderLabel t)
    (PreviewLabel t).

Definition set_SelectedFg (t : ColorTheme) (v : ColorAttr) : ColorTheme :=
  mkColorTheme (Colored t) (Input t) (Disabled t) (Fg t) (Bg t) v
    (SelectedBg t) (SelectedMatch t) (PreviewFg t) (PreviewBg t) (DarkBg t)
    (Gutter t) (Prompt t) (Match t) (Current t) (CurrentMatch t) (Spinner t)
    (Info t) (Cursor t) (Marker t) (Header t) (Separator t) (Scrollbar t)
    (Border t) (PreviewBorder t) (PreviewScrollbar t) (BorderLabel t)
    (PreviewLabel t).

Definition set_SelectedBg (t : ColorTheme) (v : ColorAttr) : ColorTheme :=
  mkColorTheme (Colored t) (Input t) (Disabled t) (Fg t) (Bg t) (SelectedFg
    t) v (SelectedMatch t) (PreviewFg t) (PreviewBg t) (DarkBg t) (Gutter t)
    (Prompt t) (Match t) (Current t) (CurrentMatch t) (Spinner t) (Info t)
    (Cursor t) (Marker t) (Header t) (Separator t) (Scrollbar t) (Border t)
    (PreviewBorder t) (PreviewScrollbar t) (BorderLabel t) (PreviewLabel t).

Definition set_SelectedMatch (t : ColorTheme) (v : ColorAttr) : ColorTheme :=
  mkColorTheme (Colored t) (Input t) (Disabled t) (Fg t) (Bg t) (SelectedFg
    t) (SelectedBg t) v (PreviewFg t) (PreviewBg t) (DarkBg t) (Gutter t)
    (Prompt t) (Match t) (Current t) (CurrentMatch t) (Spinner t) (Info t)
    (Cursor t) (Marker t) (Header t) (Separator t) (Scrollbar t) (Border t)
    (PreviewBorder t) (PreviewScrollbar t) (BorderLabel t) (PreviewLabel t).

Definition set_PreviewFg (t : ColorTheme) (v : ColorAttr) : ColorTheme :=
  mkColorTheme (Colored t) (Input t) (Disabled t) (Fg t) (Bg t) (SelectedFg
    t) (SelectedBg t) (SelectedMatch t) v (PreviewBg t) (DarkBg t) (Gutter
    t) (Prompt t) (Match t) (Current t) (CurrentMatch t) (Spinner t) (Info
    t) (Cursor t) (Marker t) (Header t) (Separator t) (Scrollbar t) (Border
    t) (PreviewBorder t) (PreviewScrollbar t) (BorderLabel t) (PreviewLabel
    t).

Definition set_PreviewBg (t : ColorTheme) (v : ColorAttr) : ColorTheme :=
  mkColorTheme (Colored t) (Input t) (Disabled t) (Fg t) (Bg t) (SelectedFg
    t) (SelectedBg t) (SelectedMatch t) (PreviewFg t) v (DarkBg t) (Gutter
    t) (Prompt t) (Match t) (Current t) (CurrentMatch t) (Spinner t) (Info
    t) (Cursor t) (Marker t) (Header t) (Separator t) (Scrollbar t) (Border
    t) (PreviewBorder t) (PreviewScrollbar t) (BorderLabel t) (PreviewLabel
    t).

Definition set_DarkBg (t : ColorTheme) (v : ColorAttr) : ColorTheme :=
  mkColorTheme (Colored t) (Input t) (Disabled t) (Fg t) (Bg t) (SelectedFg
    t) (SelectedBg t) (SelectedMatch t) (PreviewFg t) (PreviewBg t) v
    (Gutter t) (Prompt t) (Match t) (Current t) (CurrentMatch t) (Spinner t)
    (Info t) (Cursor t) (Marker t) (Header t) (Separator t) (Scrollbar t)
    (Border t) (PreviewBorder t) (PreviewScrollbar t) (BorderLabel t)
    (PreviewLabel t).

Definition set_Gutter (t : ColorTheme) (v : ColorAttr) : ColorTheme :=
  mkColorTheme (Colored t) (Input t) (Disabled t) (Fg t) (Bg t) (SelectedFg
    t) (SelectedBg t) (SelectedMatch t) (PreviewFg t) (PreviewBg t) (DarkBg
    t) v (Prompt t) (Match t) (Current t) (CurrentMatch t) (Spinner t) (Info
    t) (Cursor t) (Marker t) (Header t) (Separator t) (Scrollbar t) (Border
    t) (PreviewBorder t) (PreviewScrollbar t) (BorderLabel t) (PreviewLabel
    t).

Definition set_Prompt (t : ColorTheme) (v : ColorAttr) : ColorTheme :=
  mkColorTheme (Colored t) (Input t) (Disabled t) (Fg t) (Bg t) (SelectedFg
    t) (SelectedBg t) (SelectedMatch t) (PreviewFg t) (PreviewBg t) (DarkBg
    t) (Gutter t) v (Match t) (Current t) (CurrentMatch t) (Spinner t) (Info
    t) (Cursor t) (Marker t) (Header t) (Separator t) (Scrollbar t) (Border
    t) (PreviewBorder t) (PreviewScrollbar t) (BorderLabel t) (PreviewLabel
    t).

Definition set_Match (t : ColorTheme) (v : ColorAttr) : ColorTheme :=
  mkColorTheme (Colored t) (Input t) (Disabled t) (Fg t) (Bg t) (SelectedFg
    t) (SelectedBg t) (SelectedMatch t) (PreviewFg t) (PreviewBg t) (DarkBg
    t) (Gutter t) (Prompt t) v (Current t) (CurrentMatch t) (Spinner t)
    (Info t) (Cursor t) (Marker t) (Header t) (Separator t) (Scrollbar t)
    (Border t) (PreviewBorder t) (PreviewScrollbar t) (BorderLabel t)
    (PreviewLabel t).

Definition set_Current (t : ColorTheme) (v : ColorAttr) : ColorTheme :=
  mkColorTheme (Colored t) (Input t) (Disabled t) (Fg t) (Bg t) (SelectedFg
    t) (SelectedBg t) (SelectedMatch t) (PreviewFg t) (PreviewBg t) (DarkBg
    t) (Gutter t) (Prompt t) (Match t) v (CurrentMatch t) (Spinner t) (Info
    t) (Cursor t) (Marker t) (Header t) (Separator t) (Scrollbar t) (Border
    t) (PreviewBorder t) (PreviewScrollbar t) (BorderLabel t) (PreviewLabel
    t).

Definition set_CurrentMatch (t : ColorTheme) (v : ColorAttr) : ColorTheme :=
  mkColorTheme (Colored t) (Input t) (Disabled t) (Fg t) (Bg t) (SelectedFg
    t) (SelectedBg t) (SelectedMatch t) (PreviewFg t) (PreviewBg t) (DarkBg
    t) (Gutter t) (Prompt t) (Match t) (Current t) v (Spinner t) (Info t)
    (Cursor t) (Marker t) (Header t) (Separator t) (Scrollbar t) (Border t)
    (PreviewBorder t) (PreviewScrollbar t) (BorderLabel t) (PreviewLabel t).

Definition set_Spinner (t : ColorTheme) (v : ColorAttr) : ColorTheme :=
  mkColorTheme (Colored t) (Input t) (Disabled t) (Fg t) (Bg t) (SelectedFg
    t) (SelectedBg t) (SelectedMatch t) (PreviewFg t) (PreviewBg t) (DarkBg
    t) (Gutter t) (Prompt t) (Match t) (Current t) (CurrentMatch t) v (Info
    t) (Cursor t) (Marker t) (Header t) (Separator t) (Scrollbar t) (Border
    t) (PreviewBorder t) (PreviewScrollbar t) (BorderLabel t) (PreviewLabel
    t).

Definition set_Info (t : ColorTheme) (v : ColorAttr) : ColorTheme :=
  mkColorTheme (Colored t) (Input t) (Disabled t) (Fg t) (Bg t) (SelectedFg
    t) (SelectedBg t) (SelectedMatch t) (PreviewFg t) (PreviewBg t) (DarkBg
    t) (Gutter t) (Prompt t) (Match t) (Current t) (CurrentMatch t) (Spinner
    t) v (Cursor t) (Marker t) (Header t) (Separator t) (Scrollbar t)
    (Border t) (PreviewBorder t) (PreviewScrollbar t) (BorderLabel t)
    (PreviewLabel t).

Definition set_Cursor (t : ColorTheme) (v : ColorAttr) : ColorTheme :=
  mkColorTheme (Colored t) (Input t) (Disabled t) (Fg t) (Bg t) (SelectedFg
    t) (SelectedBg t) (SelectedMatch t) (PreviewFg t) (PreviewBg t) (DarkBg
    t) (Gutter t) (Prompt t) (Match t) (Current t) (CurrentMatch t) (Spinner
    t) (Info t) v (Marker t) (Header t) (Separator t) (Scrollbar t) (Border
    t) (PreviewBorder t) (PreviewScrollbar t) (BorderLabel t) (PreviewLabel
    t).

Definition set_Marker (t : ColorTheme) (v : ColorAttr) : ColorTheme :=
  mkColorTheme (Colored t) (Input t) (Disabled t) (Fg t) (Bg t) (SelectedFg
    t) (SelectedBg t) (SelectedMatch t) (PreviewFg t) (PreviewBg t) (DarkBg
    t) (Gutter t) (Prompt t) (Match t) (Current t) (CurrentMatch t) (Spinner
    t) (Info t) (Cursor t) v (Header t) (Separator t) (Scrollbar t) (Border
    t) (PreviewBorder t) (PreviewScrollbar t) (BorderLabel t) (PreviewLabel
    t).

Definition set_Header (t : ColorTheme) (v : ColorAttr) : ColorTheme :=
  mkColorTheme (Colored t) (Input t) (Disabled t) (Fg t) (Bg t) (SelectedFg
    t) (SelectedBg t) (SelectedMatch t) (PreviewFg t) (PreviewBg t) (DarkBg
    t) (Gutter t) (Prompt t) (Match t) (Current t) (CurrentMatch t) (Spinner
    t) (Info t) (Cursor t) (Marker t) v (Separator t) (Scrollbar t) (Border
    t) (PreviewBorder t) (PreviewScrollbar t) (BorderLabel t) (PreviewLabel
    t).

Definition set_Separator (t : ColorTheme) (v : ColorAttr) : ColorTheme :=
  mkColorTheme (Colored t) (Input t) (Disabled t) (Fg t) (Bg t) (SelectedFg
    t) (SelectedBg t) (SelectedMatch t) (PreviewFg t) (PreviewBg t) (DarkBg
    t) (Gutter t) (Prompt t) (Match t) (Current t) (CurrentMatch t) (Spinner
    t) (Info t) (Cursor t) (Marker t) (Header t) v (Scrollbar t) (Border t)
    (PreviewBorder t) (PreviewScrollbar t) (BorderLabel t) (PreviewLabel t).

Definition set_Scrollbar (t : ColorTheme) (v : ColorAttr) : ColorTheme :=
  mkColorTheme (Colored t) (Input t) (Disabled t) (Fg t) (Bg t) (SelectedFg
    t) (SelectedBg t) (SelectedMatch t) (PreviewFg t) (PreviewBg t) (DarkBg
    t) (Gutter t) (Prompt t) (Match t) (Current t) (CurrentMatch t) (Spinner
    t) (Info t) (Cursor t) (Marker t) (Header t) (Separator t) v (Border t)
    (PreviewBorder t) (PreviewScrollbar t) (BorderLabel t) (PreviewLabel t).

Definition set_Border (t : ColorTheme) (v : ColorAttr) : ColorTheme :=
  mkColorTheme (Colored t) (Input t) (Disabled t) (Fg t) (Bg t) (SelectedFg
    t) (SelectedBg t) (SelectedMatch t) (PreviewFg t) (PreviewBg t) (DarkBg
    t) (Gutter t) (Prompt t) (Match t) (Current t) (CurrentMatch t) (Spinner
    t) (Info t) (Cursor t) (Marker t) (Header t) (Separator t) (Scrollbar t)
    v (PreviewBorder t) (PreviewScrollbar t) (BorderLabel t) (PreviewLabel
    t).

Definition set_PreviewBorder (t : ColorTheme) (v : ColorAttr) : ColorTheme :=
  mkColorTheme (Colored t) (Input t) (Disabled t) (Fg t) (Bg t) (SelectedFg
    t) (SelectedBg t) (SelectedMatch t) (PreviewFg t) (PreviewBg t) (DarkBg
    t) (Gutter t) (Prompt t) (Match t) (Current t) (CurrentMatch t) (Spinner
    t) (Info t) (Cursor t) (Marker t) (Header t) (Separator t) (Scrollbar t)
    (Border t) v (PreviewScrollbar t) (BorderLabel t) (PreviewLabel t).

Definition set_PreviewScrollbar (t : ColorTheme) (v : ColorAttr) : ColorTheme :=
  mkColorTheme (Colored t) (Input t) (Disabled t) (Fg t) (Bg t) (SelectedFg
    t) (SelectedBg t) (SelectedMatch t) (PreviewFg t) (PreviewBg t) (DarkBg
    t) (Gutter t) (Prompt t) (Match t) (Current t) (CurrentMatch t) (Spinner
    t) (Info t) (Cursor t) (Marker t) (Header t) (Separator t) (Scrollbar t)
    (Border t) (PreviewBorder t) v (BorderLabel t) (PreviewLabel t).

Definition set_BorderLabel (t : ColorTheme) (v : ColorAttr) : ColorTheme :=
  mkColorTheme (Colored t) (Input t) (Disabled t) (Fg t) (Bg t) (SelectedFg
    t) (SelectedBg t) (SelectedMatch t) (PreviewFg t) (PreviewBg t) (DarkBg
    t) (Gutter t) (Prompt t) (Match t) (Current t) (CurrentMatch t) (Spinner
    t) (Info t) (Cursor t) (Marker t) (Header t) (Separator t) (Scrollbar t)
    (Border t) (PreviewBorder t) (PreviewScrollbar t) v (PreviewLabel t).

Definition set_PreviewLabel (t : ColorTheme) (v : ColorAttr) : ColorTheme :=
  mkColorTheme (Colored t) (Input t) (Disabled t) (Fg t) (Bg t) (SelectedFg
    t) (SelectedBg t) (SelectedMatch t) (PreviewFg t) (PreviewBg t) (DarkBg
    t) (Gutter t) (Prompt t) (Match t) (Current t) (CurrentMatch t) (Spinner
    t) (Info t) (Cursor t) (Marker t) (Header t) (Separator t) (Scrollbar t)
    (Border t) (PreviewBorder t) (PreviewScrollbar t) (BorderLabel t) v.

(** The built-in themes.  [Default16], [Dark256] and [Light256] are the
    values the package's [init] stores in the variables of these names. *)

Definition EmptyTheme `{AttrBackend} : ColorTheme := {|
  Colored := true;
  Input := mkColorAttr colUndefined AttrUndefined colUndefined;
  Disabled := mkColorAttr colUndefined AttrUndefined colUndefined;
  Fg := mkColorAttr colUndefined AttrUndefined colUndefined;
  Bg := mkColorAttr colUndefined AttrUndefined colUndefined;
  SelectedFg := mkColorAttr colUndefined AttrUndefined colUndefined;
  SelectedBg := mkColorAttr colUndefined AttrUndefined colUndefined;
  SelectedMatch := mkColorAttr colUndefined AttrUndefined colUndefined;
  PreviewFg := mkColorAttr colUndefined AttrUndefined colUndefined;
  PreviewBg := mkColorAttr colUndefined AttrUndefined colUndefined;
  DarkBg := mkColorAttr colUndefined AttrUndefined colUndefined;
  Gutter := mkColorAttr colUndefined AttrUndefined colUndefined;
  Prompt := mkColorAttr colUndefined AttrUndefined colUndefined;
  Match := mkColorAttr colUndefined AttrUndefined colUndefined;
  Current := mkColorAttr colUndefined AttrUndefined colUndefined;
  CurrentMatch := mkColorAttr colUndefined AttrUndefined colUndefined;
  Spinner := mkColorAttr colUndefined AttrUndefined colUndefined;
  Info := mkColorAttr colUndefined AttrUndefined colUndefined;
  Cursor := mkColorAttr colUndefined AttrUndefined colUndefined;
  Marker := mkColorAttr colUndefined AttrUndefined colUndefined;
  Header := mkColorAttr colUndefined AttrUndefined colUndefined;
  Separator := mkColorAttr colUndefined AttrUndefined colUndefined;
  Scrollbar := mkColorAttr colUndefined AttrUndefined colUndefined;
  Border := mkColorAttr colUndefined AttrUndefined colUndefined;
  PreviewBorder := mkColorAttr colUndefined AttrUndefined colUndefined;
  PreviewScrollbar := mkColorAttr colUndefined AttrUndefined colUndefined;
  BorderLabel := mkColorAttr colUndefined AttrUndefined colUndefined;
  PreviewLabel := mkColorAttr colUndefined AttrUndefined colUndefined
|}.

Definition NoColorTheme `{AttrBackend} : ColorTheme := {|
  Colored := false;
  Input := mkColorAttr colDefault AttrUndefined colUndefined;
  Disabled := mkColorAttr colDefault AttrUndefined colUndefined;
  Fg := mkColorAttr colDefault AttrUndefined colUndefined;
  Bg := mkColorAttr colDefault AttrUndefined colUndefined;
  SelectedFg := mkColorAttr colDefault AttrUndefined colUndefined;
  SelectedBg := mkColorAttr colDefault AttrUndefined colUndefined;
  SelectedMatch := mkColorAttr colDefault AttrUndefined colUndefined;
  PreviewFg := mkColorAttr colDefault AttrUndefined colUndefined;
  PreviewBg := mkColorAttr colDefault AttrUndefined colUndefined;
  DarkBg := mkColorAttr colDefault AttrUndefined colUndefined;
  Gutter := mkColorAttr colDefault AttrUndefined colUndefined;
  Prompt := mkColorAttr colDefault AttrUndefined colUndefined;
  Match := mkColorAttr colDefault Underline colUndefined;
  Current := mkColorAttr colDefault Reverse colUndefined;
  CurrentMatch := mkColorAttr colDefault (Z.lor Reverse Underline) colUndefined;
  Spinner := mkColorAttr colDefault AttrUndefined colUndefined;
  Info := mkColorAttr colDefault AttrUndefined colUndefined;
  Cursor := mkColorAttr colDefault AttrUndefined colUndefined;
  Marker := mkColorAttr colDefault AttrUndefined colUndefined;
  Header := mkColorAttr colDefault AttrUndefined colUndefined;
  Separator := mkColorAttr colDefault AttrUndefined colUndefined;
  Scrollbar := mkColorAttr colDefault AttrUndefined colUndefined;
  Border := mkColorAttr colDefault AttrUndefined colUndefined;
  PreviewBorder := mkColorAttr colDefault AttrUndefined colUndefined;
  PreviewScrollbar := mkColorAttr colDefault AttrUndefined colUndefined;
  BorderLabel := mkColorAttr colDefault AttrUndefined colUndefined;
  PreviewLabel := mkColorAttr colDefault AttrUndefined colUndefined
|}.

Definition Default16 `{AttrBackend} : ColorTheme := {|
  Colored := true;
  Input := mkColorAttr colDefault AttrUndefined colUndefined;
  Disabled := mkColorAttr colUndefined AttrUndefined colUndefined;
  Fg := mkColorAttr colDefault AttrUndefined colUndefined;
  Bg := mkColorAttr colDefault AttrUndefined colUndefined;
  SelectedFg := mkColorAttr colUndefined AttrUndefined colUndefined;
  SelectedBg := mkColorAttr colUndefined AttrUndefined colUndefined;
  SelectedMatch := mkColorAttr colUndefined AttrUndefined colUndefined;
  PreviewFg := mkColorAttr colUndefined AttrUndefined colUndefined;
  PreviewBg := mkColorAttr colUndefined AttrUndefined colUndefined;
  DarkBg := mkColorAttr colBlack AttrUndefined colUndefined;
  Gutter := mkColorAttr colUndefined AttrUndefined colUndefined;
  Prompt := mkColorAttr colBlue AttrUndefined colUndefined;
  Match := mkColorAttr colGreen AttrUndefined colUndefined;
  Current := mkColorAttr colYellow AttrUndefined colUndefined;
  CurrentMatch := mkColorAttr colGreen AttrUndefined colUndefined;
  Spinner := mkColorAttr colGreen AttrUndefined colUndefined;
  Info := mkColorAttr colWhite AttrUndefined colUndefined;
  Cursor := mkColorAttr colRed AttrUndefined colUndefined;
  Marker := mkColorAttr colMagenta AttrUndefined colUndefined;
  Header := mkColorAttr colCyan AttrUndefined colUndefined;
  Separator := mkColorAttr colUndefined AttrUndefined colUndefined;
  Scrollbar := mkColorAttr colUndefined AttrUndefined colUndefined;
  Border := mkColorAttr colBlack AttrUndefined colUndefined;
  PreviewBorder := mkColorAttr colUndefined AttrUndefined colUndefined;
  PreviewScrollbar := mkColorAttr colUndefined AttrUndefined colUndefined;
  BorderLabel := mkColorAttr colWhite AttrUndefined colUndefined;
  PreviewLabel := mkColorAttr colUndefined AttrUndefined colUndefined
|}.

Definition Dark256 `{AttrBackend} : ColorTheme := {|
  Colored := true;
  Input := mkColorAttr colDefault AttrUndefined colUndefined;
  Disabled := mkColorAttr colUndefined AttrUndefined colUndefined;
  Fg := mkColorAttr colDefault AttrUndefined colUndefined;
  Bg := mkColorAttr colDefault AttrUndefined colUndefined;
  SelectedFg := mkColorAttr colUndefined AttrUndefined colUndefined;
  SelectedBg := mkColorAttr colUndefined AttrUndefined colUndefined;
  SelectedMatch := mkColorAttr colUndefined AttrUndefined colUndefined;
  PreviewFg := mkColorAttr colUndefined AttrUndefined colUndefined;
  PreviewBg := mkColorAttr colUndefined AttrUndefined colUndefined;
  DarkBg := mkColorAttr 236 AttrUndefined colUndefined;
  Gutter := mkColorAttr colUndefined AttrUndefined colUndefined;
  Prompt := mkColorAttr 110 AttrUndefined colUndefined;
  Match := mkColorAttr 108 AttrUndefined colUndefined;
  Current := mkColorAttr 254 AttrUndefined colUndefined;
  CurrentMatch := mkColorAttr 151 AttrUndefined colUndefined;
  Spinner := mkColorAttr 148 AttrUndefined colUndefined;
  Info := mkColorAttr 144 AttrUndefined colUndefined;
  Cursor := mkColorAttr 161 AttrUndefined colUndefined;
  Marker := mkColorAttr 168 AttrUndefined colUndefined;
  Header := mkColorAttr 109 AttrUndefined colUndefined;
  Separator := mkColorAttr colUndefined AttrUndefined colUndefined;
  Scrollbar := mkColorAttr colUndefined AttrUndefined colUndefined;
  Border := mkColorAttr 59 AttrUndefined colUndefined;
  PreviewBorder := mkColorAttr colUndefined AttrUndefined colUndefined;
  PreviewScrollbar := mkColorAttr colUndefined AttrUndefined colUndefined;
  BorderLabel := mkColorAttr 145 AttrUndefined colUndefined;
  PreviewLabel := mkColorAttr colUndefined AttrUndefined colUndefined
|}.

Definition Light256 `{AttrBackend} : ColorTheme := {|
  Colored := true;
  Input := mkColorAttr colDefault AttrUndefined colUndefined;
  Disabled := mkColorAttr colUndefined AttrUndefined colUndefined;
  Fg := mkColorAttr colDefault AttrUndefined colUndefined;
  Bg := mkColorAttr colDefault AttrUndefined colUndefined;
  SelectedFg := mkColorAttr colUndefined AttrUndefined colUndefined;
  SelectedBg := mkColorAttr colUndefined AttrUndefined colUndefined;
  SelectedMatch := mkColorAttr colUndefined AttrUndefined colUndefined;
  PreviewFg := mkColorAttr colUndefined AttrUndefined colUndefined;
  PreviewBg := mkColorAttr colUndefined AttrUndefined colUndefined;
  DarkBg := mkColorAttr 251 AttrUndefined colUndefined;
  Gutter := mkColorAttr colUndefined AttrUndefined colUndefined;
  Prompt := mkColorAttr 25 AttrUndefined colUndefined;
  Match := mkColorAttr 66 AttrUndefined colUndefined;
  Current := mkColorAttr 237 AttrUndefined colUndefined;
  CurrentMatch := mkColorAttr 23 AttrUndefined colUndefined;
  Spinner := mkColorAttr 65 AttrUndefined colUndefined;
  Info := mkColorAttr 101 AttrUndefined colUndefined;
  Cursor := mkColorAttr 161 AttrUndefined colUndefined;
  Marker := mkColorAttr 168 AttrUndefined colUndefined;
  Header := mkColorAttr 31 AttrUndefined colUndefined;
  Separator := mkColorAttr colUndefined AttrUndefined colUndefined;
  Scrollbar := mkColorAttr colUndefined AttrUndefined colUndefined;
  Border := mkColorAttr 145 AttrUndefined colUndefined;
  PreviewBorder := mkColorAttr colUndefined AttrUndefined colUndefined;
  PreviewScrollbar := mkColorAttr colUndefined AttrUndefined colUndefined;
  BorderLabel := mkColorAttr 59 AttrUndefined colUndefined;
  PreviewLabel := mkColorAttr colUndefined AttrUndefined colUndefined
|}.


(** The runtime palette: the package-level [ColorPair] variables that
    initPalette assigns, gathered in one record. *)
Record Palette : Set := mkPalette {
  ColPrompt : ColorPair;
  ColNormal : ColorPair;
  ColInput : ColorPair;
  ColDisabled : ColorPair;
  ColMatch : ColorPair;
  ColCursor : ColorPair;
  ColCursorEmpty : ColorPair;
  ColMarker : ColorPair;
  ColSelected : ColorPair;
  ColSelectedMatch : ColorPair;
  ColCurrent : ColorPair;
  ColCurrentMatch : ColorPair;
  ColCurrentCursor : ColorPair;
  ColCurrentCursorEmpty : ColorPair;
  ColCurrentMarker : ColorPair;
  ColCurrentSelectedEmpty : ColorPair;
  ColSpinner : ColorPair;
  ColInfo : ColorPair;
  ColHeader : ColorPair;
  ColSeparator : ColorPair;
  ColScrollbar : ColorPair;
  ColBorder : ColorPair;
  ColPreview : ColorPair;
  ColPreviewBorder : ColorPair;
  ColBorderLabel : ColorPair;
  ColPreviewLabel : ColorPair;
  ColPreviewScrollbar : ColorPair;
  ColPreviewSpinner : ColorPair
}.


(** The closure [o] of initTheme: [b] laid over [a], field by field. *)
Definition o `{AttrBackend} (a b : ColorAttr) : ColorAttr :=
  let c := a in
  let c := if negb (caColor b =? colUndefined)
           then mkColorAttr (caColor b) (caAttr c) (caBackgroundColor c)
           else c in
  let c := if negb (caAttr b =? AttrUndefined)
           then mkColorAttr (caColor c) (caAttr b) (caBackgroundColor c)
           else c in
  let c := if negb (caBackgroundColor b =? colUndefined)
           then mkColorAttr (caColor c) (caAttr c) (caBackgroundColor b)
           else c in
  c.

(** The closure [pair] of initPalette. *)
Definition pair `{AttrBackend} (fg bg : ColorAttr) : ColorPair :=
  let bg := if (caColor fg =? colDefault) && (Z.land (caAttr fg) Reverse >? 0)
            then mkColorAttr colDefault (caAttr bg) (caBackgroundColor bg)
            else bg in
  let bg := if negb (caBackgroundColor fg =? colDefault)
               && negb (caBackgroundColor fg =? colUndefined)
            then mkColorAttr (caBackgroundColor fg) (caAttr bg)
                             (caBackgroundColor bg)
            else bg in
  mkColorPair (caColor fg) (caColor bg) (caAttr fg).


Definition initPalette `{AttrBackend} (theme : ColorTheme) : Palette :=
  let blank := Fg theme in
  let blank := mkColorAttr (caColor blank) AttrRegular
                           (caBackgroundColor blank) in
  {|
    ColPrompt := pair (Prompt theme) (Bg theme);
    ColNormal := pair (Fg theme) (Bg theme);
    ColInput := pair (Input theme) (Bg theme);
    ColDisabled := pair (Disabled theme) (Bg theme);
    ColMatch := pair (Match theme) (Bg theme);
    ColCursor := pair (Cursor theme) (Gutter theme);
    ColCursorEmpty := pair blank (Gutter theme);
    ColMarker :=
      if negb (caColor (SelectedBg theme) =? caColor (Bg theme))
      then pair (Marker theme) (SelectedBg theme)
      else pair (Marker theme) (Gutter theme);
    ColSelected := pair (SelectedFg theme) (SelectedBg theme);
    ColSelectedMatch := pair (SelectedMatch theme) (SelectedBg theme);
    ColCurrent := pair (Current theme) (DarkBg theme);
    ColCurrentMatch := pair (CurrentMatch theme) (DarkBg theme);
    ColCurrentCursor := pair (Cursor theme) (DarkBg theme);
    ColCurrentCursorEmpty := pair blank (DarkBg theme);
    ColCurrentMarker := pair (Marker theme) (DarkBg theme);
    ColCurrentSelectedEmpty := pair blank (DarkBg theme);
    ColSpinner := pair (Spinner theme) (Bg theme);
    ColInfo := pair (Info theme) (Bg theme);
    ColHeader := pair (Header theme) (Bg theme);
    ColSeparator := pair (Separator theme) (Bg theme);
    ColScrollbar := pair (Scrollbar theme) (Bg theme);
    ColBorder := pair (Border theme) (Bg theme);
    ColPreview := pair (PreviewFg theme) (PreviewBg theme);
    ColPreviewBorder := pair (PreviewBorder theme) (PreviewBg theme);
    ColBorderLabel := pair (BorderLabel theme) (Bg theme);
    ColPreviewLabel := pair (PreviewLabel theme) (PreviewBg theme);
    ColPreviewScrollbar := pair (PreviewScrollbar theme) (PreviewBg theme);
    ColPreviewSpinner := pair (Spinner theme) (PreviewBg theme)
  |}.


(** [func initTheme(theme, baseTheme *ColorTheme, forceBlack bool)]: the
    theme behind the pointer is updated slot by slot, in the order of the
    source, and the palette is derived from the result.  The function
    returns the theme as initTheme leaves it and the palette it stores. *)
Definition initTheme `{AttrBackend} (theme baseTheme : ColorTheme)
  (forceBlack : bool) : ColorTheme * Palette :=
  let theme :=
    if forceBlack
    then set_Bg theme (mkColorAttr colBlack AttrUndefined colUndefined)
    else theme in
  let theme := set_Input theme (o (Input baseTheme) (Input theme)) in
  let theme := set_Fg theme (o (Fg baseTheme) (Fg theme)) in
  let theme := set_Bg theme (o (Bg baseTheme) (Bg theme)) in
  let theme := set_DarkBg theme (o (DarkBg baseTheme) (DarkBg theme)) in
  let theme := set_Prompt theme (o (Prompt baseTheme) (Prompt theme)) in
  let theme := set_Match theme (o (Match baseTheme) (Match theme)) in
  let theme := set_Current theme (o (Current baseTheme) (Current theme)) in
  let theme :=
    set_CurrentMatch theme (o (CurrentMatch baseTheme) (CurrentMatch theme)) in
  let theme := set_Spinner theme (o (Spinner baseTheme) (Spinner theme)) in
  let theme := set_Info theme (o (Info baseTheme) (Info theme)) in
  let theme := set_Cursor theme (o (Cursor baseTheme) (Cursor theme)) in
  let theme := set_Marker theme (o (Marker baseTheme) (Marker theme)) in
  let theme := set_Header theme (o (Header baseTheme) (Header theme)) in
  let theme := set_Border theme (o (Border baseTheme) (Border theme)) in
  let theme :=
    set_BorderLabel theme (o (BorderLabel baseTheme) (BorderLabel theme)) in
  (* These colors are not defined in the base themes *)
  let theme := set_SelectedFg theme (o (Fg theme) (SelectedFg theme)) in
  let theme := set_SelectedBg theme (o (Bg theme) (SelectedBg theme)) in
  let theme :=
    set_SelectedMatch theme (o (Match theme) (SelectedMatch theme)) in
  let theme := set_Disabled theme (o (Input theme) (Disabled theme)) in
  let theme := set_Gutter theme (o (DarkBg theme) (Gutter theme)) in
  let theme := set_PreviewFg theme (o (Fg theme) (PreviewFg theme)) in
  let theme := set_PreviewBg theme (o (Bg theme) (PreviewBg theme)) in
  let theme :=
    set_PreviewLabel theme (o (BorderLabel theme) (PreviewLabel theme)) in
  let theme :=
    set_PreviewBorder theme (o (Border theme) (PreviewBorder theme)) in
  let theme := set_Separator theme (o (Border theme) (Separator theme)) in
  let theme := set_Scrollbar theme (o (Border theme) (Scrollbar theme)) in
  let theme :=
    set_PreviewScrollbar theme
      (o (PreviewBorder theme) (PreviewScrollbar theme)) in
  (theme, initPalette theme).

(** The theme that initTheme leaves behind the pointer. *)
Definition resolve `{AttrBackend} (theme baseTheme : ColorTheme)
  (forceBlack : bool) : ColorTheme :=
  fst (initTheme theme baseTheme forceBlack).

(** ** Vocabulary of the properties *)

(** The names of the [ColorAttr] slots of a theme, and the slot of a theme
    under a name; they let a property speak of every slot but some. *)
Inductive Slot : Set :=
  | sInput | sDisabled | sFg | sBg | sSelectedFg | sSelectedBg
  | sSelectedMatch | sPreviewFg | sPreviewBg | sDarkBg | sGutter | sPrompt
  | sMatch | sCurrent | sCurrentMatch | sSpinner | sInfo | sCursor | sMarker
  | sHeader | sSeparator | sScrollbar | sBorder | sPreviewBorder
  | sPreviewScrollbar | sBorderLabel | sPreviewLabel.

Definition slot (s : Slot) (t : ColorTheme) : ColorAttr :=
  match s with
  | sInput => Input t | sDisabled => Disabled t | sFg => Fg t | sBg => Bg t
  | sSelectedFg => SelectedFg t | sSelectedBg => SelectedBg t
  | sSelectedMatch => SelectedMatch t | sPreviewFg => PreviewFg t
  | sPreviewBg => PreviewBg t | sDarkBg => DarkBg t | sGutter => Gutter t
  | sPrompt => Prompt t | sMatch => Match t | sCurrent => Current t
  | sCurrentMatch => CurrentMatch t | sSpinner => Spinner t
  | sInfo => Info t | sCursor => Cursor t | sMarker => Marker t
  | sHeader => Header t | sSeparator => Separator t
  | sScrollbar => Scrollbar t | sBorder => Border t
  | sPreviewBorder => PreviewBorder t
  | sPreviewScrollbar => PreviewScrollbar t | sBorderLabel => BorderLabel t
  | sPreviewLabel => PreviewLabel t
  end.

(** The update of the slot under a name, by the setter of that slot. *)
Definition set_slot (s : Slot) (t : ColorTheme) (v : ColorAttr)
  : ColorTheme :=
  match s with
  | sInput => set_Input t v | sDisabled => set_Disabled t v
  | sFg => set_Fg t v | sBg => set_Bg t v
  | sSelectedFg => set_SelectedFg t v | sSelectedBg => set_SelectedBg t v
  | sSelectedMatch => set_SelectedMatch t v
  | sPreviewFg => set_PreviewFg t v | sPreviewBg => set_PreviewBg t v
  | sDarkBg => set_DarkBg t v | sGutter => set_Gutter t v
  | sPrompt => set_Prompt t v | sMatch => set_Match t v
  | sCurrent => set_Current t v | sCurrentMatch => set_CurrentMatch t v
  | sSpinner => set_Spinner t v | sInfo => set_Info t v
  | sCursor => set_Cursor t v | sMarker => set_Marker t v
  | sHeader => set_Header t v | sSeparator => set_Separator t v
  | sScrollbar => set_Scrollbar t v | sBorder => set_Border t v
  | sPreviewBorder => set_PreviewBorder t v
  | sPreviewScrollbar => set_PreviewScrollbar t v
  | sBorderLabel => set_BorderLabel t v
  | sPreviewLabel => set_PreviewLabel t v
  end.

Definition Slot_eq_dec (a b : Slot) : {a = b} + {a <> b}.
Proof. decide equality. Defined.

(** An attribute flag is set in a bitmask. *)
Definition attr_set (a flag : Attr) : Prop := Z.land a flag <> 0.

(** The rule the spec gives for [Attr] merge: merging the undefined
    attribute in changes nothing. *)
Definition undefined_is_noop `{AttrBackend} : Prop :=
  forall a : Attr, AttrMerge a AttrUndefined = a.

(** The value of a hexadecimal digit, in either case: its place among
    the sixteen digits. *)
Fixpoint place (c : ascii) (digits : string) (i : Z) : option Z :=
  match digits with
  | EmptyString => None
  | String d rest => if Ascii.eqb c d then Some i else place c rest (i + 1)
  end.

Definition hexValue (c : ascii) : option Z :=
  match place c "0123456789abcdef" 0 with
  | Some v => Some v
  | None => place c "0123456789ABCDEF" 0
  end.

(** The packed truecolor value [1<<24 | R<<16 | G<<8 | B]. *)
Definition packRGB (r g b : Z) : Color :=
  Z.lor (Z.shiftl 1 24) (Z.lor (Z.shiftl r 16) (Z.lor (Z.shiftl g 8) b)).

(** The parsed value of a two-byte component, the error dropped. *)
Definition component (s : string) : Z := fst (ParseInt s 16).

(** [strconv.ParseInt] rejects the component. *)
Definition rejected (s : string) : Prop := snd (ParseInt s 16) <> None.

(** The two-byte string that a slice of width two yields. *)
Definition two (a b : ascii) : string := String a (String b "").

(** Every byte, and a decision procedure for what the proofs need of
    [strconv.ParseInt] on a two-byte component: its value lies between
    -15 and 255, is zero when the component is rejected, and is the
    hexadecimal reading when both bytes are hexadecimal digits. *)
Definition all_bytes : list ascii := map ascii_of_nat (seq 0 256).

Definition check_component (a b : ascii) : bool :=
  let r := ParseInt (two a b) 16 in
  (-15 <=? fst r) && (fst r <=? 255)
  && match snd r with
     | None => true
     | Some _ => fst r =? 0
     end
  && match hexValue a, hexValue b with
     | Some x, Some y =>
         (fst r =? 16 * x + y)
         && match snd r with None => true | Some _ => false end
     | _, _ => true
     end.

(** The kinds that KeyName names by a case of their own. *)
Definition special_key (t : EventType) : bool :=
  match t with
  | Rune | Alt | CtrlAlt
  | CtrlBackSlash | CtrlRightBracket | CtrlCaret | CtrlSlash => true
  | _ => false
  end.

(** ** More of tui.go *)

(** [func (t EventType) Byte() byte]: the conversion to uint8. *)
Definition Byte (t : EventType) : Z := Int t mod 2 ^ 8.

(** *** BorderCatalog *)

(** [type BorderShape int] with its constant block. *)
Inductive BorderShape : Set :=
  | BorderUndefined | BorderNone | BorderRounded | BorderSharp | BorderBold
  | BorderBlock | BorderThinBlock | BorderDouble | BorderHorizontal
  | BorderVertical | BorderTop | BorderBottom | BorderLeft | BorderRight.

Definition HasLeft (s : BorderShape) : bool :=
  match s with
  | BorderNone | BorderRight | BorderTop | BorderBottom | BorderHorizontal =>
      false
  | _ => true
  end.

Definition HasRight (s : BorderShape) : bool :=
  match s with
  | BorderNone | BorderLeft | BorderTop | BorderBottom | BorderHorizontal =>
      false
  | _ => true
  end.

Definition HasTop (s : BorderShape) : bool :=
  match s with
  | BorderNone | BorderLeft | BorderRight | BorderBottom | BorderVertical =>
      false
  | _ => true
  end.

(** [type BorderStyle struct]; a rune is its code point. *)
Record BorderStyle : Set := mkBorderStyle {
  shape : BorderShape;
  top : Z;
  bottom : Z;
  left : Z;
  right : Z;
  topLeft : Z;
  topRight : Z;
  bottomLeft : Z;
  bottomRight : Z
}.

(** [func MakeBorderStyle(shape BorderShape, unicode bool) BorderStyle];
    the runes of the source are written as their code points: '-' 0x2d,
    '|' 0x7c, '+' 0x2b, then the box-drawing characters U+2500 and up,
    the block elements U+2580 and up and the four corner characters
    U+1FB7C to U+1FB7F of the thin block. *)
Definition MakeBorderStyle (shape : BorderShape) (unicode : bool)
  : BorderStyle :=
  if negb unicode then
    mkBorderStyle shape 0x2d 0x2d 0x7c 0x7c 0x2b 0x2b 0x2b 0x2b
  else
    match shape with
    | BorderSharp =>
        mkBorderStyle shape 0x2500 0x2500 0x2502 0x2502
          0x250c 0x2510 0x2514 0x2518
    | BorderBold =>
        mkBorderStyle shape 0x2501 0x2501 0x2503 0x2503
          0x250f 0x2513 0x2517 0x251b
    | BorderBlock =>
        mkBorderStyle shape 0x2580 0x2584 0x258c 0x2590
          0x259b 0x259c 0x2599 0x259f
    | BorderThinBlock =>
        mkBorderStyle shape 0x2594 0x2581 0x258f 0x2595
          0x1fb7d 0x1fb7e 0x1fb7c 0x1fb7f
    | BorderDouble =>
        mkBorderStyle shape 0x2550 0x2550 0x2551 0x2551
          0x2554 0x2557 0x255a 0x255d
    | _ =>
        mkBorderStyle shape 0x2500 0x2500 0x2502 0x2502
          0x256d 0x256e 0x2570 0x256f
    end.

Definition MakeTransparentBorder : BorderStyle :=
  mkBorderStyle BorderRounded 0x20 0x20 0x20 0x20 0x20 0x20 0x20 0x20.

(** *** Vocabulary of the further properties *)

(** The eight glyphs of a border style. *)
Definition glyphs (b : BorderStyle) : list Z :=
  [top b; bottom b; left b; right b;
   topLeft b; topRight b; bottomLeft b; bottomRight b].

(** The slot that initTheme lays a compound slot over; [None] for the
    primitive slots, which it lays over the same slot of the base theme. *)
Definition fallback (s : Slot) : option Slot :=
  match s with
  | sSelectedFg => Some sFg
  | sSelectedBg => Some sBg
  | sSelectedMatch => Some sMatch
  | sDisabled => Some sInput
  | sGutter => Some sDarkBg
  | sPreviewFg => Some sFg
  | sPreviewBg => Some sBg
  | sPreviewLabel => Some sBorderLabel
  | sPreviewBorder => Some sBorder
  | sSeparator => Some sBorder
  | sScrollbar => Some sBorder
  | sPreviewScrollbar => Some sPreviewBorder
  | _ => None
  end.

(** What initTheme reads as the overlay's slot: the slot of the theme it
    is given, but the black [Bg] when [forceBlack] is set. *)
Definition overlay_slot `{AttrBackend} (forceBlack : bool) (s : Slot)
  (t : ColorTheme) : ColorAttr :=
  match s with
  | sBg =>
      if forceBlack
      then mkColorAttr colBlack AttrUndefined colUndefined
      else Bg t
  | _ => slot s t
  end.

(** The pairs that initPalette stores. *)
Definition pairs (p : Palette) : list ColorPair :=
  [ColPrompt p; ColNormal p; ColInput p; ColDisabled p; ColMatch p;
   ColCursor p; ColCursorEmpty p; ColMarker p; ColSelected p;
   ColSelectedMatch p; ColCurrent p; ColCurrentMatch p;
   ColCurrentCursor p; ColCurrentCursorEmpty p; ColCurrentMarker p;
   ColCurrentSelectedEmpty p; ColSpinner p; ColInfo p; ColHeader p;
   ColSeparator p; ColScrollbar p; ColBorder p; ColPreview p;
   ColPreviewBorder p; ColBorderLabel p; ColPreviewLabel p;
   ColPreviewScrollbar p; ColPreviewSpinner p].

(** The three base themes that [init] builds. *)
Definition builtin `{AttrBackend} : list ColorTheme :=
  [Default16; Dark256; Light256].

(** The kinds that KeyName names by the kind alone: the keys, which come
    before [Invalid], but the three that carry a character. *)
Definition named_key (t : EventType) : bool :=
  (Int t <? Int Invalid)
  && match t with
     | Rune | Alt | CtrlAlt => false
     | _ => true
     end.

Definition check_names : bool :=
  forallb (fun t1 =>
    forallb (fun t2 =>
      implb (named_key t1 && named_key t2
             && String.eqb (KeyName (AsEvent t1)) (KeyName (AsEvent t2)))
            (Int t1 =? Int t2))
      allEventTypes)
    allEventTypes.

(** A decision procedure for what ParseInt does with a sign and one
    hexadecimal digit. *)
Definition check_signed (c : ascii) : bool :=
  match hexValue c with
  | Some v =>
      match ParseInt (two "+" c) 16, ParseInt (two "-" c) 16 with
      | (p, None), (m, None) => (p =? v) && (m =? - v)
      | _, _ => false
      end
  | None => true
  end.

(** * Properties *)

(** ** The enumeration *)

Lemma Int_iota : map Int allEventTypes = map Z.of_nat (seq 0 100).
Proof. reflexivity. Qed.

Lemma allEventTypes_complete (t : EventType) : In t allEventTypes.
Proof. destruct t; simpl; tauto. Qed.

Lemma colDefault_not_undefined : colDefault <> colUndefined.
Proof. discriminate. Qed.

(** ** Merge algebra of color pairs *)

Section MergeAlgebra.
Context {B : AttrBackend}.

Lemma merge_fg (p other : ColorPair) (except : Color) :
  fg (merge p other except) =
  if fg other =? except then fg p else fg other.
Proof.
  unfold merge.
  destruct (fg other =? except); destruct (bg other =? except); reflexivity.
Qed.

Lemma merge_bg (p other : ColorPair) (except : Color) :
  bg (merge p other except) =
  if bg other =? except then bg p else bg other.
Proof.
  unfold merge.
  destruct (fg other =? except); destruct (bg other =? except); reflexivity.
Qed.

Lemma merge_attr (p other : ColorPair) (except : Color) :
  attr (merge p other except) = AttrMerge (attr p) (attr other).
Proof.
  unfold merge.
  destruct (fg other =? except); destruct (bg other =? except); reflexivity.
Qed.

Lemma merge_keeps (x y except : Color) :
  y = except -> (if y =? except then x else y) = x.
Proof. intros ->. now rewrite Z.eqb_refl. Qed.

Lemma merge_takes (x y except : Color) :
  y <> except -> (if y =? except then x else y) = y.
Proof. intros H. apply Z.eqb_neq in H. now rewrite H. Qed.

(** C1: [Merge a b] is [a] with [fg] replaced by [b]'s unless that is
    [colUndefined], [bg] likewise, and [attr] the [Attr] merge of the two
    attributes; when undefined is a no-op of the [Attr] merge, as the spec
    has it, an undefined [attr] of [b] leaves [a]'s unchanged too. *)
Theorem Merge_fields (a b : ColorPair) :
  (fg b = colUndefined -> fg (Merge a b) = fg a) /\
  (fg b <> colUndefined -> fg (Merge a b) = fg b) /\
  (bg b = colUndefined -> bg (Merge a b) = bg a) /\
  (bg b <> colUndefined -> bg (Merge a b) = bg b) /\
  attr (Merge a b) = AttrMerge (attr a) (attr b) /\
  (undefined_is_noop -> attr b = AttrUndefined ->
   attr (Merge a b) = attr a).
Proof.
  unfold Merge. rewrite merge_fg, merge_bg, merge_attr.
  repeat split; intros.
  - now apply merge_keeps.
  - now apply merge_takes.
  - now apply merge_keeps.
  - now apply merge_takes.
  - match goal with H : attr b = _ |- _ => rewrite H end. auto.
Qed.

(** C2: [MergeNonDefault a b] keeps [a]'s [fg] when [b]'s is
    [colDefault] and takes [b]'s otherwise, and the same for [bg];
    [colDefault] is not [colUndefined]. *)
Theorem MergeNonDefault_fields (a b : ColorPair) :
  colDefault <> colUndefined /\
  (fg b = colDefault -> fg (MergeNonDefault a b) = fg a) /\
  (fg b <> colDefault -> fg (MergeNonDefault a b) = fg b) /\
  (bg b = colDefault -> bg (MergeNonDefault a b) = bg a) /\
  (bg b <> colDefault -> bg (MergeNonDefault a b) = bg b).
Proof.
  unfold MergeNonDefault. rewrite merge_fg, merge_bg.
  split; [discriminate|].
  repeat split; intros.
  - now apply merge_keeps.
  - now apply merge_takes.
  - now apply merge_keeps.
  - now apply merge_takes.
Qed.

(** C10: an undefined [fg] (or [bg]) of [b] is not protected by
    [MergeNonDefault]: it replaces [a]'s field. *)
Theorem MergeNonDefault_injects_undefined (a b : ColorPair) :
  (fg b = colUndefined -> fg (MergeNonDefault a b) = colUndefined) /\
  (bg b = colUndefined -> bg (MergeNonDefault a b) = colUndefined).
Proof.
  unfold MergeNonDefault. rewrite merge_fg, merge_bg.
  split; intros H; rewrite H; reflexivity.
Qed.

(** C6: with [Reverse] a non-negative mask, [HasBg p] holds exactly when
    [Reverse] is not set and [bg] is not [colDefault], or [Reverse] is
    set and [fg] is not [colDefault]. *)
Theorem HasBg_iff (p : ColorPair) :
  0 <= Reverse ->
  HasBg p = true <->
  (~ attr_set (attr p) Reverse /\ bg p <> colDefault) \/
  (attr_set (attr p) Reverse /\ fg p <> colDefault).
Proof.
  intros HR. unfold HasBg, attr_set.
  assert (Hnn : 0 <= Z.land (attr p) Reverse)
    by (apply Z.land_nonneg; now right).
  rewrite orb_true_iff, !andb_true_iff, !negb_true_iff.
  rewrite Z.eqb_eq, !Z.eqb_neq, Z.gtb_lt.
  split; intros [[H1 H2] | [H1 H2]].
  - left. split; [intro H; now apply H | assumption].
  - right. split; [lia | assumption].
  - left. split; [lia | assumption].
  - right. split; [lia | assumption].
Qed.

End MergeAlgebra.

(** ** Theme resolution *)

(** The setters change the slot they name and nothing else. *)
Lemma slot_set_slot (s s' : Slot) (t : ColorTheme) (v : ColorAttr) :
  slot s' (set_slot s t v) = (if Slot_eq_dec s s' then v else slot s' t) /\
  Colored (set_slot s t v) = Colored t.
Proof.
  split; [ | destruct s; reflexivity].
  destruct (Slot_eq_dec s s') as [<- | Hne].
  - destruct s; reflexivity.
  - destruct s, s'; try reflexivity; now elim Hne.
Qed.

Section ThemeResolution.
Context {B : AttrBackend}.

(** Runs initTheme's slot updates and leaves the overlays [o] folded. *)
Ltac run_initTheme := cbv -[o initPalette].

Lemma o_undefined (a : ColorAttr) : o a NewColorAttr = a.
Proof.
  unfold o, NewColorAttr; simpl. rewrite Z.eqb_refl. simpl.
  now destruct a.
Qed.

Lemma o_defined (a b : ColorAttr) :
  caColor b <> colUndefined -> caAttr b <> AttrUndefined ->
  caBackgroundColor b <> colUndefined -> o a b = b.
Proof.
  intros H1 H2 H3. apply Z.eqb_neq in H1, H2, H3.
  unfold o. rewrite H1, H2, H3. now destruct b.
Qed.

Lemma o_Color (a b : ColorAttr) :
  caColor (o a b) =
  if caColor b =? colUndefined then caColor a else caColor b.
Proof.
  unfold o.
  destruct (caColor b =? colUndefined), (caAttr b =? AttrUndefined),
    (caBackgroundColor b =? colUndefined); reflexivity.
Qed.

Lemma o_Attr (a b : ColorAttr) :
  caAttr (o a b) =
  if caAttr b =? AttrUndefined then caAttr a else caAttr b.
Proof.
  unfold o.
  destruct (caColor b =? colUndefined), (caAttr b =? AttrUndefined),
    (caBackgroundColor b =? colUndefined); reflexivity.
Qed.

Lemma o_BackgroundColor (a b : ColorAttr) :
  caBackgroundColor (o a b) =
  if caBackgroundColor b =? colUndefined
  then caBackgroundColor a else caBackgroundColor b.
Proof.
  unfold o.
  destruct (caColor b =? colUndefined), (caAttr b =? AttrUndefined),
    (caBackgroundColor b =? colUndefined); reflexivity.
Qed.

(** Every primitive slot but [Bg] is the overlay's laid over the base
    theme's; [Bg] is too unless [forceBlack] replaces the overlay's. *)
Lemma resolve_primitive (theme baseTheme : ColorTheme) (forceBlack : bool) :
  let r := resolve theme baseTheme forceBlack in
  Colored r = Colored theme /\
  Input r = o (Input baseTheme) (Input theme) /\
  Fg r = o (Fg baseTheme) (Fg theme) /\
  Bg r = o (Bg baseTheme)
           (if forceBlack
            then mkColorAttr colBlack AttrUndefined colUndefined
            else Bg theme) /\
  DarkBg r = o (DarkBg baseTheme) (DarkBg theme) /\
  Prompt r = o (Prompt baseTheme) (Prompt theme) /\
  Match r = o (Match baseTheme) (Match theme) /\
  Current r = o (Current baseTheme) (Current theme) /\
  CurrentMatch r = o (CurrentMatch baseTheme) (CurrentMatch theme) /\
  Spinner r = o (Spinner baseTheme) (Spinner theme) /\
  Info r = o (Info baseTheme) (Info theme) /\
  Cursor r = o (Cursor baseTheme) (Cursor theme) /\
  Marker r = o (Marker baseTheme) (Marker theme) /\
  Header r = o (Header baseTheme) (Header theme) /\
  Border r = o (Border baseTheme) (Border theme) /\
  BorderLabel r = o (BorderLabel baseTheme) (BorderLabel theme).
Proof. destruct forceBlack; run_initTheme; repeat split. Qed.

(** Every compound slot is the overlay's laid over the resolved slot it
    falls back to, not over a slot of the base theme. *)
Lemma resolve_compound (theme baseTheme : ColorTheme) (forceBlack : bool) :
  let r := resolve theme baseTheme forceBlack in
  SelectedFg r = o (Fg r) (SelectedFg theme) /\
  SelectedBg r = o (Bg r) (SelectedBg theme) /\
  SelectedMatch r = o (Match r) (SelectedMatch theme) /\
  Disabled r = o (Input r) (Disabled theme) /\
  Gutter r = o (DarkBg r) (Gutter theme) /\
  PreviewFg r = o (Fg r) (PreviewFg theme) /\
  PreviewBg r = o (Bg r) (PreviewBg theme) /\
  PreviewLabel r = o (BorderLabel r) (PreviewLabel theme) /\
  PreviewBorder r = o (Border r) (PreviewBorder theme) /\
  Separator r = o (Border r) (Separator theme) /\
  Scrollbar r = o (Border r) (Scrollbar theme) /\
  PreviewScrollbar r = o (PreviewBorder r) (PreviewScrollbar theme).
Proof. destruct forceBlack; run_initTheme; repeat split. Qed.

(** C3: when the overlay sets no slot but [Fg], the resolved
    [SelectedFg] is the resolved [Fg], which is the overlay's [Fg] laid
    over the base theme's: it has the overlay's color, attribute and
    background color wherever the overlay defines them. *)
Theorem SelectedFg_tracks_Fg (theme baseTheme : ColorTheme)
  (forceBlack : bool) :
  (forall s, s <> sFg -> slot s theme = NewColorAttr) ->
  let r := resolve theme baseTheme forceBlack in
  SelectedFg r = Fg r /\
  Fg r = o (Fg baseTheme) (Fg theme) /\
  (caColor (Fg theme) <> colUndefined ->
   caColor (SelectedFg r) = caColor (Fg theme)) /\
  (caAttr (Fg theme) <> AttrUndefined ->
   caAttr (SelectedFg r) = caAttr (Fg theme)) /\
  (caBackgroundColor (Fg theme) <> colUndefined ->
   caBackgroundColor (SelectedFg r) = caBackgroundColor (Fg theme)) /\
  (caColor (Fg theme) <> colUndefined ->
   caAttr (Fg theme) <> AttrUndefined ->
   caBackgroundColor (Fg theme) <> colUndefined ->
   SelectedFg r = Fg theme).
Proof.
  intros Hothers r.
  assert (Hsel : SelectedFg theme = NewColorAttr)
    by (apply (Hothers sSelectedFg); discriminate).
  destruct (resolve_compound theme baseTheme forceBlack) as [Hc _].
  destruct (resolve_primitive theme baseTheme forceBlack)
    as (_ & _ & Hp & _).
  fold r in Hc, Hp.
  assert (E : SelectedFg r = Fg r)
    by (rewrite Hc, Hsel; apply o_undefined).
  repeat split; try assumption; intros Hdef; rewrite E, Hp.
  - rewrite o_Color. now apply merge_takes.
  - rewrite o_Attr. now apply merge_takes.
  - rewrite o_BackgroundColor. now apply merge_takes.
  - intros Ha Hb. apply o_defined; assumption.
Qed.

(** C4, as the code has it: with [forceBlack] the resolved [Bg] has the
    color [colBlack] whatever the overlay and the base theme say, and
    [forceBlack] changes no slot but [Bg] and the two slots that fall
    back to it, [SelectedBg] and [PreviewBg]. *)
Theorem forceBlack_Bg (theme baseTheme : ColorTheme) :
  caColor (Bg (resolve theme baseTheme true)) = colBlack /\
  Colored (resolve theme baseTheme true)
  = Colored (resolve theme baseTheme false) /\
  forall s, s <> sBg -> s <> sSelectedBg -> s <> sPreviewBg ->
    slot s (resolve theme baseTheme true)
    = slot s (resolve theme baseTheme false).
Proof.
  split; [|split].
  - destruct (resolve_primitive theme baseTheme true)
      as (_ & _ & _ & Hbg & _).
    cbv zeta in Hbg. rewrite Hbg, o_Color. reflexivity.
  - run_initTheme; reflexivity.
  - intros s H1 H2 H3.
    destruct s; try (now elim H1); try (now elim H2); try (now elim H3);
      run_initTheme; reflexivity.
Qed.

(** What [forceBlack] does to the two compound slots: they are laid over
    the forced [Bg], so they are black wherever the overlay leaves their
    color undefined. *)
Lemma forceBlack_SelectedBg_PreviewBg (theme baseTheme : ColorTheme) :
  let r := resolve theme baseTheme true in
  (caColor (SelectedBg theme) = colUndefined ->
   caColor (SelectedBg r) = colBlack) /\
  (caColor (PreviewBg theme) = colUndefined ->
   caColor (PreviewBg r) = colBlack).
Proof.
  intros r.
  destruct (resolve_compound theme baseTheme true)
    as (_ & Hs & _ & _ & _ & _ & Hp & _).
  destruct (resolve_primitive theme baseTheme true)
    as (_ & _ & _ & Hbg & _).
  fold r in Hs, Hp, Hbg.
  split; intros H.
  - rewrite Hs, o_Color, H, Z.eqb_refl, Hbg, o_Color. reflexivity.
  - rewrite Hp, o_Color, H, Z.eqb_refl, Hbg, o_Color. reflexivity.
Qed.

(** ** Palette derivation *)

Lemma pair_fg_attr (fg0 bg0 : ColorAttr) :
  fg (pair fg0 bg0) = caColor fg0 /\ attr (pair fg0 bg0) = caAttr fg0.
Proof. split; reflexivity. Qed.

(** C5, as the code has it: a foreground of color [colDefault] with
    [Reverse] in its attribute forces the pair's background to
    [colDefault], unless the foreground carries a real [BackgroundColor]
    (neither [colDefault] nor [colUndefined]), which then is the pair's
    background. *)
Theorem pair_default_reverse (fg0 bg0 : ColorAttr) :
  caColor fg0 = colDefault ->
  Z.land (caAttr fg0) Reverse > 0 ->
  (caBackgroundColor fg0 = colDefault \/
   caBackgroundColor fg0 = colUndefined ->
   bg (pair fg0 bg0) = colDefault) /\
  (caBackgroundColor fg0 <> colDefault ->
   caBackgroundColor fg0 <> colUndefined ->
   bg (pair fg0 bg0) = caBackgroundColor fg0).
Proof.
  intros Hc Hr. unfold pair.
  rewrite Hc, Z.eqb_refl.
  apply Z.gt_lt, Z.gtb_lt in Hr. rewrite Hr. simpl andb. cbv iota.
  split.
  - intros [H | H]; rewrite H; reflexivity.
  - intros H1 H2. apply Z.eqb_neq in H1, H2. rewrite H1, H2. reflexivity.
Qed.

(** Without the default-and-reverse foreground or a real
    [BackgroundColor], the pair's background is the background slot's
    color. *)
Lemma pair_plain (fg0 bg0 : ColorAttr) :
  (caColor fg0 <> colDefault \/ Z.land (caAttr fg0) Reverse <= 0) ->
  (caBackgroundColor fg0 = colDefault \/
   caBackgroundColor fg0 = colUndefined) ->
  bg (pair fg0 bg0) = caColor bg0.
Proof.
  intros H1 H2. unfold pair.
  assert (E : (caColor fg0 =? colDefault)
              && (Z.land (caAttr fg0) Reverse >? 0) = false).
  { apply andb_false_iff. destruct H1 as [H | H].
    - left. now apply Z.eqb_neq.
    - right. rewrite Z.gtb_ltb. apply Z.ltb_ge. exact H. }
  rewrite E. destruct H2 as [H | H]; rewrite H; reflexivity.
Qed.

End ThemeResolution.

(** ** Key names *)

(** C7, as the code has it: KeyName is the empty string for [Invalid]
    and every kind after it; below [Invalid] it is the character for
    [Rune], the character after "alt-" for [Alt] and after "ctrl-alt-"
    for [CtrlAlt], the four fixed strings for the four control chords,
    and the kebab-case form of the kind's name for every other kind. *)
Theorem KeyName_cases (e : Event) :
  (Int (evType e) >= Int Invalid -> KeyName e = "") /\
  (evType e = Rune -> KeyName e = runeToString (evChar e)) /\
  (evType e = Alt ->
   KeyName e = ("alt-" ++ runeToString (evChar e))%string) /\
  (evType e = CtrlAlt ->
   KeyName e = ("ctrl-alt-" ++ runeToString (evChar e))%string) /\
  (evType e = CtrlBackSlash -> KeyName e = "ctrl-\") /\
  (evType e = CtrlRightBracket -> KeyName e = "ctrl-]") /\
  (evType e = CtrlCaret -> KeyName e = "ctrl-^") /\
  (evType e = CtrlSlash -> KeyName e = "ctrl-/") /\
  (Int (evType e) < Int Invalid -> special_key (evType e) = false ->
   KeyName e = ToKebabCase (EventType_String (evType e))).
Proof.
  destruct e as [t c m]. unfold KeyName. simpl evType. simpl evChar.
  repeat split; try (intros ->; reflexivity).
  - intros H. apply Z.ge_le, Z.geb_le in H. now rewrite H.
  - intros H Hs.
    assert (E : (Int t >=? Int Invalid) = false)
      by (rewrite Z.geb_leb; apply Z.leb_gt; exact H).
    rewrite E. destruct t; try reflexivity; discriminate Hs.
Qed.

(** The kinds below [Invalid] are the key kinds, so every key but the
    seven special ones is named after its constant. *)
Example KeyName_samples :
  KeyName (AsEvent CtrlA) = "ctrl-a" /\
  KeyName (AsEvent PageUp) = "page-up" /\
  KeyName (AsEvent AltShiftLeft) = "alt-shift-left" /\
  KeyName (AsEvent F10) = "f10" /\
  KeyName (Key 97) = "a" /\
  KeyName (AltKey 97) = "alt-a" /\
  KeyName (CtrlAltKey 97) = "ctrl-alt-a".
Proof. repeat split. Qed.

(** ** Hex colors *)

Lemma all_bytes_complete (c : ascii) : In c all_bytes.
Proof.
  unfold all_bytes. rewrite <- (ascii_nat_embedding c).
  apply in_map, in_seq. pose proof (nat_ascii_bounded c). lia.
Qed.

Lemma check_all_components :
  forallb (fun a => forallb (check_component a) all_bytes) all_bytes = true.
Proof. vm_compute. reflexivity. Qed.

Lemma check_component_true (a b : ascii) : check_component a b = true.
Proof.
  pose proof check_all_components as H.
  rewrite forallb_forall in H. specialize (H a (all_bytes_complete a)).
  rewrite forallb_forall in H. exact (H b (all_bytes_complete b)).
Qed.

Lemma component_range (a b : ascii) : -15 <= component (two a b) <= 255.
Proof.
  pose proof (check_component_true a b) as H. unfold check_component in H.
  cbv zeta in H. rewrite !andb_true_iff in H.
  destruct H as [[[H1 H2] _] _]. unfold component. lia.
Qed.

Lemma component_rejected (a b : ascii) :
  rejected (two a b) -> component (two a b) = 0.
Proof.
  pose proof (check_component_true a b) as H. unfold check_component in H.
  cbv zeta in H. rewrite !andb_true_iff in H.
  destruct H as [[_ H] _]. unfold rejected, component. intros Hr.
  destruct (snd (ParseInt (two a b) 16)); [lia | now elim Hr].
Qed.

Lemma component_hex (a b : ascii) (x y : Z) :
  hexValue a = Some x -> hexValue b = Some y ->
  ParseInt (two a b) 16 = (16 * x + y, None).
Proof.
  intros Ha Hb.
  pose proof (check_component_true a b) as H. unfold check_component in H.
  cbv zeta in H. rewrite Ha, Hb, !andb_true_iff in H.
  destruct H as [_ [H1 H2]].
  destruct (ParseInt (two a b) 16) as [v err]. simpl in H1, H2.
  destruct err; [discriminate H2 | ]. apply Z.eqb_eq in H1. now subst.
Qed.

Lemma int64_small (x : Z) : - 2 ^ 63 <= x < 2 ^ 63 -> int64 x = x.
Proof.
  intros H. unfold int64, wrap. simpl Z.sub.
  rewrite Z.mod_small; lia.
Qed.

Lemma int32_small (x : Z) : - 2 ^ 31 <= x < 2 ^ 31 -> int32 x = x.
Proof.
  intros H. unfold int32, wrap. simpl Z.sub.
  rewrite Z.mod_small; lia.
Qed.

(** The sum that HexToColor computes, for components of a byte's size:
    no step of it wraps. *)
Lemma hex_sum_exact (r g b : Z) :
  -255 <= r <= 255 -> -255 <= g <= 255 -> -255 <= b <= 255 ->
  int32 (int64 (int64 (int64 (Z.shiftl 1 24 + int64 (Z.shiftl r 16))
                       + int64 (Z.shiftl g 8)) + b))
  = 2 ^ 24 + r * 2 ^ 16 + g * 2 ^ 8 + b.
Proof.
  intros Hr Hg Hb. rewrite !Z.shiftl_mul_pow2 by lia.
  rewrite Z.mul_1_l.
  rewrite (int64_small (r * 2 ^ 16)) by lia.
  rewrite (int64_small (g * 2 ^ 8)) by lia.
  rewrite (int64_small (2 ^ 24 + r * 2 ^ 16)) by lia.
  rewrite (int64_small (2 ^ 24 + r * 2 ^ 16 + g * 2 ^ 8)) by lia.
  rewrite (int64_small (2 ^ 24 + r * 2 ^ 16 + g * 2 ^ 8 + b)) by lia.
  apply int32_small. lia.
Qed.

(** Below a shifted value, adding is the same as or-ing. *)
Lemma shiftl_add_lor (a b n : Z) :
  0 <= n -> 0 <= b < 2 ^ n -> Z.shiftl a n + b = Z.lor (Z.shiftl a n) b.
Proof.
  intros Hn Hb.
  assert (Hland : Z.land (Z.shiftl a n) b = 0).
  { apply Z.bits_inj'. intros i Hi.
    rewrite Z.land_spec, Z.bits_0.
    destruct (Z.lt_ge_cases i n) as [Hlt | Hge].
    - rewrite Z.shiftl_spec_low by assumption. reflexivity.
    - rewrite <- (Z.mod_small b (2 ^ n)) by assumption.
      rewrite Z.mod_pow2_bits_high by lia. apply andb_false_r. }
  rewrite Z.add_nocarry_lxor by assumption.
  apply Z.lxor_lor. assumption.
Qed.

Lemma packRGB_sum (r g b : Z) :
  0 <= r < 256 -> 0 <= g < 256 -> 0 <= b < 256 ->
  2 ^ 24 + r * 2 ^ 16 + g * 2 ^ 8 + b = packRGB r g b.
Proof.
  intros Hr Hg Hb. unfold packRGB.
  rewrite <- (shiftl_add_lor g b 8) by lia.
  rewrite <- (shiftl_add_lor r _ 16)
    by (rewrite ?Z.shiftl_mul_pow2 by lia; lia).
  rewrite <- (shiftl_add_lor 1 _ 24)
    by (rewrite ?Z.shiftl_mul_pow2 by lia; lia).
  rewrite !Z.shiftl_mul_pow2 by lia. lia.
Qed.

Lemma hexValue_range (c : ascii) (v : Z) :
  hexValue c = Some v -> 0 <= v < 16.
Proof.
  destruct c as [[] [] [] [] [] [] [] []]; intros H; vm_compute in H;
    try discriminate H; injection H as <-; lia.
Qed.

(** The three slices of a string of at least seven bytes. *)
Lemma slices_seven (c0 c1 c2 c3 c4 c5 c6 : ascii) (rest : string) :
  let s := String c0 (String c1 (String c2 (String c3
             (String c4 (String c5 (String c6 rest)))))) in
  slice s 1 3 = Some (two c1 c2) /\
  slice s 3 5 = Some (two c3 c4) /\
  slice s 5 7 = Some (two c5 c6).
Proof.
  intros s; subst s; split; [|split]; try reflexivity.
  destruct rest; reflexivity.
Qed.

(** HexToColor on a string of at least seven bytes, in terms of its
    components. *)
Lemma HexToColor_seven (c0 c1 c2 c3 c4 c5 c6 : ascii) (rest : string) :
  HexToColor
    (String c0 (String c1 (String c2 (String c3
      (String c4 (String c5 (String c6 rest)))))))
  = Some (2 ^ 24 + component (two c1 c2) * 2 ^ 16
          + component (two c3 c4) * 2 ^ 8 + component (two c5 c6)).
Proof.
  destruct (slices_seven c0 c1 c2 c3 c4 c5 c6 rest) as (H1 & H2 & H3).
  cbv zeta in H1, H2, H3.
  unfold HexToColor. rewrite H1, H2, H3. cbv beta iota delta [bind].
  fold (component (two c1 c2)) (component (two c3 c4))
    (component (two c5 c6)).
  f_equal. apply hex_sum_exact.
  - pose proof (component_range c1 c2); lia.
  - pose proof (component_range c3 c4); lia.
  - pose proof (component_range c5 c6); lia.
Qed.

(** C8: "#000000" parses to [1<<24], "#ffffff" to [1<<24 + 0xffffff],
    and every "#RRGGBB" of hexadecimal digits, of either case, to the
    packed value [1<<24 | R<<16 | G<<8 | B]. *)
Theorem HexToColor_wellformed :
  HexToColor "#000000" = Some (Z.shiftl 1 24) /\
  HexToColor "#ffffff" = Some (Z.shiftl 1 24 + 0xffffff) /\
  forall (c1 c2 c3 c4 c5 c6 : ascii) (r1 r0 g1 g0 b1 b0 : Z),
    hexValue c1 = Some r1 -> hexValue c2 = Some r0 ->
    hexValue c3 = Some g1 -> hexValue c4 = Some g0 ->
    hexValue c5 = Some b1 -> hexValue c6 = Some b0 ->
    HexToColor
      (String "#" (String c1 (String c2 (String c3
        (String c4 (String c5 (String c6 "")))))))
    = Some (packRGB (16 * r1 + r0) (16 * g1 + g0) (16 * b1 + b0)).
Proof.
  split; [reflexivity | split; [reflexivity | ]].
  intros c1 c2 c3 c4 c5 c6 r1 r0 g1 g0 b1 b0 H1 H2 H3 H4 H5 H6.
  rewrite HexToColor_seven. unfold component.
  rewrite (component_hex c1 c2 r1 r0 H1 H2).
  rewrite (component_hex c3 c4 g1 g0 H3 H4).
  rewrite (component_hex c5 c6 b1 b0 H5 H6).
  cbv [fst].
  apply hexValue_range in H1, H2, H3, H4, H5, H6.
  f_equal. apply packRGB_sum; lia.
Qed.

(** An input shorter than seven bytes makes a slice expression panic. *)
Lemma HexToColor_short (s : string) :
  (length s < 7)%nat -> HexToColor s = None.
Proof.
  intros H. unfold HexToColor, bind.
  destruct (slice s 1 3); [ | reflexivity].
  destruct (slice s 3 5); [ | reflexivity].
  unfold slice.
  replace ((7 <=? length s)%nat) with false
    by (symmetry; apply Nat.leb_gt; exact H).
  reflexivity.
Qed.

(** C9, as the code has it: on an input of at least seven bytes
    HexToColor returns, whatever the bytes are; its value is
    [1<<24 + r<<16 + g<<8 + b] for the values [r], [g], [b] that
    [strconv.ParseInt] gives for bytes 1-2, 3-4 and 5-6, and a component
    that ParseInt rejects counts as zero, the other components still
    counting; the value is [1<<24] when all three are rejected. *)
Theorem HexToColor_malformed (s : string) :
  (7 <= length s)%nat ->
  exists rs gs bs : string,
    slice s 1 3 = Some rs /\ slice s 3 5 = Some gs /\
    slice s 5 7 = Some bs /\
    HexToColor s
    = Some (2 ^ 24 + component rs * 2 ^ 16 + component gs * 2 ^ 8
            + component bs) /\
    (rejected rs -> component rs = 0) /\
    (rejected gs -> component gs = 0) /\
    (rejected bs -> component bs = 0) /\
    (rejected rs -> rejected gs -> rejected bs ->
     HexToColor s = Some (Z.shiftl 1 24)).
Proof.
  intros Hlen.
  destruct s as [ | c0 [ | c1 [ | c2 [ | c3 [ | c4 [ | c5 [ | c6 rest]]]]]]];
    simpl in Hlen; try lia.
  exists (two c1 c2), (two c3 c4), (two c5 c6).
  destruct (slices_seven c0 c1 c2 c3 c4 c5 c6 rest) as (S1 & S2 & S3).
  cbv zeta in S1, S2, S3.
  repeat split; try assumption.
  - apply HexToColor_seven.
  - apply component_rejected.
  - apply component_rejected.
  - apply component_rejected.
  - intros R1 R2 R3. rewrite HexToColor_seven.
    rewrite (component_rejected _ _ R1), (component_rejected _ _ R2),
      (component_rejected _ _ R3).
    reflexivity.
Qed.

(** ** The properties on inputs *)

Section OnSpecBackend.
#[local] Existing Instance specBackend.

Lemma specBackend_noop : undefined_is_noop.
Proof. intros a. apply Z.lor_0_r. Qed.

Lemma Merge_fields_witness :
  fg (Merge (mkColorPair 1 2 8) (mkColorPair colUndefined 5 AttrUndefined))
  = 1 /\
  bg (Merge (mkColorPair 1 2 8) (mkColorPair colUndefined 5 AttrUndefined))
  = 5 /\
  attr (Merge (mkColorPair 1 2 8) (mkColorPair colUndefined 5 AttrUndefined))
  = 8.
Proof.
  destruct (Merge_fields (mkColorPair 1 2 8)
              (mkColorPair colUndefined 5 AttrUndefined))
    as (H1 & _ & _ & H4 & _ & H6).
  split; [apply H1; reflexivity | split].
  - apply H4. discriminate.
  - apply H6; [exact specBackend_noop | reflexivity].
Defined.

Lemma MergeNonDefault_fields_witness :
  fg (MergeNonDefault (mkColorPair 1 2 0) (mkColorPair colDefault 5 0)) = 1
  /\
  bg (MergeNonDefault (mkColorPair 1 2 0) (mkColorPair colDefault 5 0)) = 5.
Proof.
  destruct (MergeNonDefault_fields (mkColorPair 1 2 0)
              (mkColorPair colDefault 5 0))
    as (_ & H1 & _ & _ & H4).
  split; [apply H1; reflexivity | apply H4; discriminate].
Defined.

Lemma MergeNonDefault_injects_undefined_witness :
  fg (MergeNonDefault (mkColorPair 1 2 0)
        (mkColorPair colUndefined colUndefined 0)) = colUndefined /\
  bg (MergeNonDefault (mkColorPair 1 2 0)
        (mkColorPair colUndefined colUndefined 0)) = colUndefined.
Proof.
  destruct (MergeNonDefault_injects_undefined (mkColorPair 1 2 0)
              (mkColorPair colUndefined colUndefined 0)) as (H1 & H2).
  split; [apply H1; reflexivity | apply H2; reflexivity].
Defined.

Lemma HasBg_iff_witness :
  0 <= Reverse /\
  (HasBg (mkColorPair 3 colDefault Reverse) = true <->
   (~ attr_set Reverse Reverse /\ colDefault <> colDefault) \/
   (attr_set Reverse Reverse /\ 3 <> colDefault)).
Proof.
  split; [cbn; lia | ].
  apply (HasBg_iff (mkColorPair 3 colDefault Reverse)). cbn; lia.
Defined.

Lemma SelectedFg_tracks_Fg_witness :
  caColor (SelectedFg
    (resolve (set_Fg EmptyTheme (mkColorAttr colRed AttrUndefined colUndefined))
       Default16 false)) = colRed.
Proof.
  destruct (SelectedFg_tracks_Fg
              (set_Fg EmptyTheme
                 (mkColorAttr colRed AttrUndefined colUndefined))
              Default16 false) as (_ & _ & H & _).
  - intros s Hs. destruct s; try reflexivity. now elim Hs.
  - apply H. discriminate.
Defined.

Lemma forceBlack_Bg_witness :
  caColor (Bg (resolve EmptyTheme Default16 true)) = colBlack /\
  Fg (resolve EmptyTheme Default16 true)
  = Fg (resolve EmptyTheme Default16 false).
Proof.
  destruct (forceBlack_Bg EmptyTheme Default16) as (H1 & _ & H3).
  split; [exact H1 | apply (H3 sFg); discriminate].
Defined.

(** C4 does not hold of [SelectedBg]: with the empty overlay on
    [Default16], [forceBlack] turns its color from [colDefault] into
    [colBlack]. *)
Lemma forceBlack_changes_SelectedBg :
  sSelectedBg <> sBg /\
  caColor (SelectedBg (resolve EmptyTheme Default16 false)) = colDefault /\
  caColor (SelectedBg (resolve EmptyTheme Default16 true)) = colBlack /\
  slot sSelectedBg (resolve EmptyTheme Default16 true)
  <> slot sSelectedBg (resolve EmptyTheme Default16 false).
Proof.
  split; [discriminate | ].
  split; [reflexivity | ].
  split; [reflexivity | ].
  vm_compute. discriminate.
Qed.

Lemma pair_default_reverse_witness :
  bg (pair (mkColorAttr colDefault Reverse colUndefined)
        (mkColorAttr colRed AttrUndefined colUndefined)) = colDefault /\
  bg (pair (mkColorAttr colDefault Reverse colMagenta)
        (mkColorAttr colRed AttrUndefined colUndefined)) = colMagenta.
Proof.
  split.
  - apply (pair_default_reverse
             (mkColorAttr colDefault Reverse colUndefined)
             (mkColorAttr colRed AttrUndefined colUndefined));
      [reflexivity | reflexivity | right; reflexivity].
  - apply (pair_default_reverse
             (mkColorAttr colDefault Reverse colMagenta)
             (mkColorAttr colRed AttrUndefined colUndefined));
      [reflexivity | reflexivity | discriminate | discriminate].
Defined.

(** C5 does not hold when the foreground carries a real
    [BackgroundColor]: the pair's background is that color, not
    [colDefault]. *)
Lemma pair_default_reverse_real_background :
  caColor (mkColorAttr colDefault Reverse colMagenta) = colDefault /\
  Z.land (caAttr (mkColorAttr colDefault Reverse colMagenta)) Reverse > 0 /\
  bg (pair (mkColorAttr colDefault Reverse colMagenta)
        (mkColorAttr colRed AttrUndefined colUndefined)) = colMagenta /\
  bg (pair (mkColorAttr colDefault Reverse colMagenta)
        (mkColorAttr colRed AttrUndefined colUndefined)) <> colDefault.
Proof. repeat split; discriminate. Qed.

End OnSpecBackend.

Lemma KeyName_cases_witness :
  KeyName (AsEvent Resize) = "" /\ KeyName (AsEvent PageUp) = "page-up".
Proof.
  split.
  - apply (KeyName_cases (AsEvent Resize)). simpl. lia.
  - apply (KeyName_cases (AsEvent PageUp)); [simpl; lia | reflexivity].
Defined.

(** C7 does not hold of [Resize], a kind that is none of the seven
    special ones: its key name is empty, not "resize". *)
Lemma KeyName_Resize_empty :
  special_key Resize = false /\
  ToKebabCase (EventType_String Resize) = "resize" /\
  KeyName (AsEvent Resize) <> ToKebabCase (EventType_String Resize).
Proof. repeat split; discriminate. Qed.

Lemma HexToColor_wellformed_witness :
  HexToColor "#1a2B3c" = Some (packRGB 0x1a 0x2b 0x3c).
Proof.
  destruct HexToColor_wellformed as (_ & _ & H).
  apply (H "1" "a" "2" "B" "3" "c" 1 10 2 11 3 12)%char; reflexivity.
Defined.

Lemma HexToColor_malformed_witness :
  exists rs gs bs : string,
    slice "#ff00zz" 1 3 = Some rs /\ slice "#ff00zz" 3 5 = Some gs /\
    slice "#ff00zz" 5 7 = Some bs /\
    HexToColor "#ff00zz"
    = Some (2 ^ 24 + component rs * 2 ^ 16 + component gs * 2 ^ 8
            + component bs) /\
    (rejected rs -> component rs = 0) /\
    (rejected gs -> component gs = 0) /\
    (rejected bs -> component bs = 0) /\
    (rejected rs -> rejected gs -> rejected bs ->
     HexToColor "#ff00zz" = Some (Z.shiftl 1 24)).
Proof. apply (HexToColor_malformed "#ff00zz"). simpl. lia. Defined.

(** C9 does not hold of "#ff00zz", whose last component is no
    hexadecimal numeral: the red component still counts, so the result is
    not the packed black. *)
Lemma HexToColor_malformed_not_black :
  hexValue "z" = None /\
  rejected "zz" /\
  HexToColor "#ff00zz" = Some (Z.shiftl 1 24 + 0xff0000) /\
  HexToColor "#ff00zz" <> Some (Z.shiftl 1 24).
Proof. repeat split; discriminate. Qed.

(** Signs are accepted by ParseInt, so a component that is no pair of
    hexadecimal digits can still count, and negatively. *)
Example HexToColor_signed_components :
  HexToColor "#+f0000" = Some (Z.shiftl 1 24 + 0x0f0000) /\
  HexToColor "#-f0000" = Some (Z.shiftl 1 24 - 0x0f0000) /\
  HexToColor "#ff" = None.
Proof. repeat split. Qed.

(** * Further properties *)

(** ** Color pairs *)

Lemma ColorPair_ext (p q : ColorPair) :
  fg p = fg q -> bg p = bg q -> attr p = attr q -> p = q.
Proof. destruct p, q; simpl; intros; subst; reflexivity. Qed.

Lemma ColorAttr_ext (a b : ColorAttr) :
  caColor a = caColor b -> caAttr a = caAttr b ->
  caBackgroundColor a = caBackgroundColor b -> a = b.
Proof. destruct a, b; simpl; intros; subst; reflexivity. Qed.

(** The choice that merge and the closure [o] make for one field. *)
Lemma choose_assoc (x y z e : Z) :
  (if z =? e then (if y =? e then x else y) else z)
  = (if (if z =? e then y else z) =? e then x
     else (if z =? e then y else z)).
Proof.
  destruct (z =? e) eqn:Hz; [reflexivity | ]. now rewrite Hz.
Qed.

Lemma choose_idem (x y e : Z) :
  (if (if y =? e then x else y) =? e then x else (if y =? e then x else y))
  = (if y =? e then x else y).
Proof.
  destruct (y =? e) eqn:Hy; [ | now rewrite Hy].
  now destruct (x =? e).
Qed.

Section MergeLaws.
Context {B : AttrBackend}.

(** Merging is associative, for either sentinel, when the back end's
    [Attr] merge is: overlays can be combined before they are applied. *)
Theorem merge_assoc (a b c : ColorPair) (except : Color) :
  (forall x y z : Attr,
     AttrMerge (AttrMerge x y) z = AttrMerge x (AttrMerge y z)) ->
  merge (merge a b except) c except = merge a (merge b c except) except.
Proof.
  intros Hassoc. apply ColorPair_ext.
  - rewrite !merge_fg. apply choose_assoc.
  - rewrite !merge_bg. apply choose_assoc.
  - rewrite !merge_attr. apply Hassoc.
Qed.

(** The pair made of the sentinel and the undefined attribute is a right
    unit of merge, when undefined is a no-op of the [Attr] merge. *)
Theorem merge_sentinel_unit (p : ColorPair) (except : Color) :
  undefined_is_noop ->
  merge p (mkColorPair except except AttrUndefined) except = p.
Proof.
  intros Hnoop. apply ColorPair_ext.
  - rewrite merge_fg. simpl. now rewrite Z.eqb_refl.
  - rewrite merge_bg. simpl. now rewrite Z.eqb_refl.
  - rewrite merge_attr. apply Hnoop.
Qed.

(** merge never brings its own sentinel into a field that did not hold
    it: [Merge] keeps defined colors defined. *)
Theorem merge_keeps_off_sentinel (a b : ColorPair) (except : Color) :
  (fg a <> except -> fg (merge a b except) <> except) /\
  (bg a <> except -> bg (merge a b except) <> except).
Proof.
  rewrite merge_fg, merge_bg.
  split; intros Ha.
  - destruct (fg b =? except) eqn:E; [exact Ha | now apply Z.eqb_neq].
  - destruct (bg b =? except) eqn:E; [exact Ha | now apply Z.eqb_neq].
Qed.

(** [MergeAttr] is the merge with a pair that holds only the other's
    attribute: it keeps both colors and gives the attribute that [Merge]
    and [MergeNonDefault] give. *)
Theorem MergeAttr_as_merge (p other : ColorPair) (except : Color) :
  MergeAttr p other
  = merge p (mkColorPair except except (attr other)) except /\
  attr (MergeAttr p other) = attr (Merge p other) /\
  attr (MergeAttr p other) = attr (MergeNonDefault p other).
Proof.
  split; [ | split].
  - apply ColorPair_ext.
    + rewrite merge_fg. simpl. now rewrite Z.eqb_refl.
    + rewrite merge_bg. simpl. now rewrite Z.eqb_refl.
    + rewrite merge_attr. reflexivity.
  - unfold Merge. now rewrite merge_attr.
  - unfold MergeNonDefault. now rewrite merge_attr.
Qed.

(** The overlay [o] of theme slots has [NewColorAttr] as unit on both
    sides and is associative: laying overlays over each other first and
    over a base then gives the same slot. *)
Theorem o_monoid (a b c : ColorAttr) :
  o a NewColorAttr = a /\
  o NewColorAttr a = a /\
  o (o a b) c = o a (o b c).
Proof.
  split; [apply o_undefined | split].
  - apply ColorAttr_ext;
      rewrite ?o_Color, ?o_Attr, ?o_BackgroundColor; simpl.
    + destruct (caColor a =? colUndefined) eqn:E; [ | reflexivity].
      apply Z.eqb_eq in E. now rewrite E.
    + destruct (caAttr a =? AttrUndefined) eqn:E; [ | reflexivity].
      apply Z.eqb_eq in E. now rewrite E.
    + destruct (caBackgroundColor a =? colUndefined) eqn:E;
        [ | reflexivity].
      apply Z.eqb_eq in E. now rewrite E.
  - apply ColorAttr_ext;
      rewrite ?o_Color, ?o_Attr, ?o_BackgroundColor; apply choose_assoc.
Qed.

Lemma o_idem (a b : ColorAttr) : o a (o a b) = o a b.
Proof.
  apply ColorAttr_ext;
    rewrite ?o_Color, ?o_Attr, ?o_BackgroundColor; apply choose_idem.
Qed.

(** A default foreground shown in reverse gives a pair for which HasBg
    is false, whatever the background slot and whatever background color
    the foreground carries. *)
Theorem HasBg_pair_default_reverse (fg0 bg0 : ColorAttr) :
  caColor fg0 = colDefault ->
  Z.land (caAttr fg0) Reverse > 0 ->
  HasBg (pair fg0 bg0) = false.
Proof.
  intros Hc Hr. unfold HasBg.
  destruct (pair_fg_attr fg0 bg0) as [Hfg Hattr].
  rewrite Hfg, Hattr, Hc, Z.eqb_refl.
  assert (E : (Z.land (caAttr fg0) Reverse =? 0) = false)
    by (apply Z.eqb_neq; lia).
  rewrite E. simpl. apply andb_false_r.
Qed.

End MergeLaws.

(** ** Hex colors, continued *)

Lemma land_pow2 (a n : Z) :
  0 <= n -> Z.land a (2 ^ n) = if Z.testbit a n then 2 ^ n else 0.
Proof.
  intros Hn. apply Z.bits_inj'. intros i Hi.
  rewrite Z.land_spec, Z.pow2_bits_eqb by assumption.
  destruct (Z.eqb_spec n i) as [<- | Hne].
  - rewrite andb_true_r. destruct (Z.testbit a n) eqn:E.
    + rewrite Z.pow2_bits_true by assumption. reflexivity.
    + rewrite Z.bits_0. reflexivity.
  - rewrite andb_false_r. destruct (Z.testbit a n).
    + rewrite Z.pow2_bits_false by assumption. reflexivity.
    + rewrite Z.bits_0. reflexivity.
Qed.

Lemma is24_flagged (c : Color) : 2 ^ 24 <= c < 2 ^ 25 -> is24 c = true.
Proof.
  intros H. unfold is24. rewrite Z.shiftl_mul_pow2, Z.mul_1_l by lia.
  rewrite land_pow2 by lia.
  assert (Hbit : Z.testbit c 24 = true).
  { apply Z.testbit_true; [lia | ].
    replace (c / 2 ^ 24) with 1; [reflexivity | ].
    apply Z.div_unique with (r := c - 2 ^ 24); lia. }
  rewrite Hbit. apply andb_true_iff. split; apply Z.gtb_lt; lia.
Qed.

Lemma is24_unflagged (c : Color) : c < 2 ^ 24 -> is24 c = false.
Proof.
  intros H. unfold is24.
  destruct (Z.gtb_spec c 0) as [Hpos | Hneg]; [ | reflexivity].
  rewrite Z.shiftl_mul_pow2, Z.mul_1_l by lia.
  rewrite land_pow2 by lia.
  assert (Hbit : Z.testbit c 24 = false).
  { apply Z.testbit_false; [lia | ].
    rewrite Z.div_small by lia. reflexivity. }
  rewrite Hbit. reflexivity.
Qed.

(** No color below [1<<24] counts as a 24-bit color: not the sentinels,
    not the palette indices. *)
Theorem is24_below (c : Color) : c < 2 ^ 24 -> is24 c = false.
Proof. apply is24_unflagged. Qed.

(** HexToColor returns exactly on the inputs of at least seven bytes; on
    the others a slice expression panics. *)
Theorem HexToColor_returns_iff (s : string) :
  HexToColor s <> None <-> (7 <= length s)%nat.
Proof.
  split.
  - intros H. destruct (Nat.le_gt_cases 7 (length s)) as [Hle | Hlt];
      [exact Hle | ].
    elim H. now apply HexToColor_short.
  - intros Hlen.
    destruct s as [ | c0 [ | c1 [ | c2 [ | c3 [ | c4 [ | c5 [ | c6 rest]]]]]]];
      simpl in Hlen; try lia.
    rewrite HexToColor_seven. discriminate.
Qed.

(** Whatever HexToColor returns is above the palette indices and below
    [1<<25]: never a sentinel, never negative, never a palette index. *)
Theorem HexToColor_range (s : string) (c : Color) :
  HexToColor s = Some c ->
  255 < c < 2 ^ 25 /\ c <> colDefault /\ c <> colUndefined.
Proof.
  intros H.
  destruct s as [ | c0 [ | c1 [ | c2 [ | c3 [ | c4 [ | c5 [ | c6 rest]]]]]]];
    try discriminate H.
  rewrite HexToColor_seven in H.
  assert (Hc : c = 2 ^ 24 + component (two c1 c2) * 2 ^ 16
               + component (two c3 c4) * 2 ^ 8 + component (two c5 c6))
    by congruence.
  clear H.
  pose proof (component_range c1 c2).
  pose proof (component_range c3 c4).
  pose proof (component_range c5 c6).
  unfold colDefault, colUndefined. lia.
Qed.

(** HexToColor reads bytes 1 to 6 only: the first byte need not be '#'
    and what follows the seventh is ignored. *)
Theorem HexToColor_bytes_read (c0 c0' c1 c2 c3 c4 c5 c6 : ascii)
  (rest rest' : string) :
  HexToColor
    (String c0 (String c1 (String c2 (String c3
      (String c4 (String c5 (String c6 rest)))))))
  = HexToColor
    (String c0' (String c1 (String c2 (String c3
      (String c4 (String c5 (String c6 rest'))))))).
Proof. rewrite !HexToColor_seven. reflexivity. Qed.

(** Every well-formed "#RRGGBB" parses to a color that is24 accepts and
    IsDefault rejects. *)
Theorem HexToColor_is24 (c1 c2 c3 c4 c5 c6 : ascii) (c : Color) :
  hexValue c1 <> None -> hexValue c2 <> None -> hexValue c3 <> None ->
  hexValue c4 <> None -> hexValue c5 <> None -> hexValue c6 <> None ->
  HexToColor
    (String "#" (String c1 (String c2 (String c3
      (String c4 (String c5 (String c6 ""))))))) = Some c ->
  is24 c = true /\ IsDefault c = false.
Proof.
  intros H1 H2 H3 H4 H5 H6 H.
  rewrite HexToColor_seven in H.
  assert (Hc : c = 2 ^ 24 + component (two c1 c2) * 2 ^ 16
               + component (two c3 c4) * 2 ^ 8 + component (two c5 c6))
    by congruence.
  clear H. subst c.
  destruct (hexValue c1) as [r1 | ] eqn:E1; [ | now elim H1].
  destruct (hexValue c2) as [r0 | ] eqn:E2; [ | now elim H2].
  destruct (hexValue c3) as [g1 | ] eqn:E3; [ | now elim H3].
  destruct (hexValue c4) as [g0 | ] eqn:E4; [ | now elim H4].
  destruct (hexValue c5) as [b1 | ] eqn:E5; [ | now elim H5].
  destruct (hexValue c6) as [b0 | ] eqn:E6; [ | now elim H6].
  unfold component.
  rewrite (component_hex c1 c2 r1 r0 E1 E2).
  rewrite (component_hex c3 c4 g1 g0 E3 E4).
  rewrite (component_hex c5 c6 b1 b0 E5 E6).
  cbv [fst].
  apply hexValue_range in E1, E2, E3, E4, E5, E6.
  split.
  - apply is24_flagged. lia.
  - unfold IsDefault, colDefault. apply Z.eqb_neq. lia.
Qed.

Lemma check_signed_all : forallb check_signed all_bytes = true.
Proof. vm_compute. reflexivity. Qed.

Lemma component_signed (c : ascii) (v : Z) :
  hexValue c = Some v ->
  ParseInt (two "+" c) 16 = (v, None) /\
  ParseInt (two "-" c) 16 = (- v, None).
Proof.
  intros Hv. pose proof check_signed_all as H.
  rewrite forallb_forall in H. specialize (H c (all_bytes_complete c)).
  unfold check_signed in H. rewrite Hv in H.
  destruct (ParseInt (two "+" c) 16) as [p [e1 | ]]; [discriminate H | ].
  destruct (ParseInt (two "-" c) 16) as [m [e2 | ]]; [discriminate H | ].
  apply andb_true_iff in H. destruct H as [Hp Hm].
  apply Z.eqb_eq in Hp, Hm. now subst.
Qed.

(** HexToColor takes a sign in a component, since ParseInt does: a red
    component made of '+' or '-' and one hexadecimal digit counts as plus
    or minus the digit, and with a minus and a digit other than zero the
    result is below [1<<24], which is24 does not accept. *)
Theorem HexToColor_signed (c0 c : ascii) (v : Z) :
  hexValue c = Some v ->
  HexToColor
    (String c0 (String "+" (String c (String "0"
      (String "0" (String "0" (String "0" "")))))))
  = Some (2 ^ 24 + v * 2 ^ 16) /\
  HexToColor
    (String c0 (String "-" (String c (String "0"
      (String "0" (String "0" (String "0" "")))))))
  = Some (2 ^ 24 - v * 2 ^ 16) /\
  (0 < v -> is24 (2 ^ 24 - v * 2 ^ 16) = false).
Proof.
  intros Hv. destruct (component_signed c v Hv) as [Hp Hm].
  assert (H0 : component (two "0" "0") = 0) by reflexivity.
  rewrite !HexToColor_seven. unfold component at 1 4.
  fold (two "+" c) (two "-" c). rewrite Hp, Hm, !H0. cbv [fst].
  repeat split.
  - f_equal. lia.
  - f_equal. lia.
  - intros Hpos. apply is24_unflagged. lia.
Qed.

(** ** Theme resolution, continued *)

Lemma ColorTheme_ext (a b : ColorTheme) :
  Colored a = Colored b -> (forall s, slot s a = slot s b) -> a = b.
Proof.
  intros Hc Hs. destruct a, b. simpl in Hc. subst.
  pose proof (Hs sInput); pose proof (Hs sDisabled); pose proof (Hs sFg);
  pose proof (Hs sBg); pose proof (Hs sSelectedFg);
  pose proof (Hs sSelectedBg); pose proof (Hs sSelectedMatch);
  pose proof (Hs sPreviewFg); pose proof (Hs sPreviewBg);
  pose proof (Hs sDarkBg); pose proof (Hs sGutter); pose proof (Hs sPrompt);
  pose proof (Hs sMatch); pose proof (Hs sCurrent);
  pose proof (Hs sCurrentMatch); pose proof (Hs sSpinner);
  pose proof (Hs sInfo); pose proof (Hs sCursor); pose proof (Hs sMarker);
  pose proof (Hs sHeader); pose proof (Hs sSeparator);
  pose proof (Hs sScrollbar); pose proof (Hs sBorder);
  pose proof (Hs sPreviewBorder); pose proof (Hs sPreviewScrollbar);
  pose proof (Hs sBorderLabel); pose proof (Hs sPreviewLabel).
  simpl in *. subst. reflexivity.
Qed.

Section ThemeLaws.
Context {B : AttrBackend}.

Ltac run_initTheme := cbv -[o initPalette].

(** Every resolved slot, in one equation: the overlay's slot laid over
    the resolved slot it falls back to, or over the base theme's slot. *)
Lemma resolve_slot (theme baseTheme : ColorTheme) (forceBlack : bool)
  (s : Slot) :
  slot s (resolve theme baseTheme forceBlack)
  = o (match fallback s with
       | Some p => slot p (resolve theme baseTheme forceBlack)
       | None => slot s baseTheme
       end)
      (overlay_slot forceBlack s theme).
Proof. destruct s, forceBlack; run_initTheme; reflexivity. Qed.

Lemma resolve_Colored (theme baseTheme : ColorTheme) (forceBlack : bool) :
  Colored (resolve theme baseTheme forceBlack) = Colored theme.
Proof. destruct forceBlack; run_initTheme; reflexivity. Qed.

Lemma o_keeps_Color (a b : ColorAttr) :
  caColor a <> colUndefined -> caColor (o a b) <> colUndefined.
Proof.
  intros Ha. rewrite o_Color.
  destruct (caColor b =? colUndefined) eqn:E;
    [exact Ha | now apply Z.eqb_neq].
Qed.

Lemma initTheme_eq (theme baseTheme : ColorTheme) (forceBlack : bool) :
  initTheme theme baseTheme forceBlack
  = (resolve theme baseTheme forceBlack,
     initPalette (resolve theme baseTheme forceBlack)).
Proof. destruct forceBlack; run_initTheme; reflexivity. Qed.

Lemma resolve_resolve (theme baseTheme : ColorTheme) (forceBlack : bool) :
  resolve (resolve theme baseTheme forceBlack) baseTheme forceBlack
  = resolve theme baseTheme forceBlack.
Proof.
  apply ColorTheme_ext.
  - now rewrite !resolve_Colored.
  - intros s.
    destruct s, forceBlack; run_initTheme; rewrite ?o_idem; reflexivity.
Qed.

(** initTheme is idempotent: resolving a resolved theme again, against
    the same base theme, leaves the theme and the palette as they are. *)
Theorem initTheme_idempotent (theme baseTheme : ColorTheme)
  (forceBlack : bool) :
  initTheme (resolve theme baseTheme forceBlack) baseTheme forceBlack
  = initTheme theme baseTheme forceBlack.
Proof.
  rewrite (initTheme_eq (resolve theme baseTheme forceBlack)).
  rewrite resolve_resolve. symmetry. apply initTheme_eq.
Qed.

(** What the overlay defines wins, for every slot, primitive or compound:
    a field that the overlay sets is the resolved field.  The one
    exception is [Bg] under [forceBlack]. *)
Theorem overlay_wins (theme baseTheme : ColorTheme) (forceBlack : bool)
  (s : Slot) :
  forceBlack = false \/ s <> sBg ->
  let r := resolve theme baseTheme forceBlack in
  (caColor (slot s theme) <> colUndefined ->
   caColor (slot s r) = caColor (slot s theme)) /\
  (caAttr (slot s theme) <> AttrUndefined ->
   caAttr (slot s r) = caAttr (slot s theme)) /\
  (caBackgroundColor (slot s theme) <> colUndefined ->
   caBackgroundColor (slot s r) = caBackgroundColor (slot s theme)).
Proof.
  intros Hs r. unfold r. rewrite resolve_slot.
  assert (E : overlay_slot forceBlack s theme = slot s theme).
  { destruct Hs as [-> | Hs]; [now destruct s | ].
    destruct s; try reflexivity. now elim Hs. }
  rewrite E, o_Color, o_Attr, o_BackgroundColor.
  repeat split; intros H; now apply merge_takes.
Qed.

(** A compound slot that the overlay leaves wholly undefined resolves to
    the resolved slot it falls back to: SelectedFg and PreviewFg to Fg,
    Gutter to DarkBg, PreviewScrollbar to PreviewBorder, and so on. *)
Theorem compound_falls_back (theme baseTheme : ColorTheme)
  (forceBlack : bool) (s p : Slot) :
  fallback s = Some p ->
  slot s theme = NewColorAttr ->
  slot s (resolve theme baseTheme forceBlack)
  = slot p (resolve theme baseTheme forceBlack).
Proof.
  intros Hf Hu. rewrite (resolve_slot theme baseTheme forceBlack s), Hf.
  assert (E : overlay_slot forceBlack s theme = slot s theme)
    by (destruct s; try reflexivity; discriminate Hf).
  rewrite E, Hu. apply o_undefined.
Qed.

(** Resolving [EmptyTheme] gives the base theme back on the primitive
    slots, and on each compound slot the resolved slot that it falls
    back to. *)
Theorem resolve_EmptyTheme (baseTheme : ColorTheme) (s : Slot) :
  slot s (resolve EmptyTheme baseTheme false)
  = match fallback s with
    | Some p => slot p (resolve EmptyTheme baseTheme false)
    | None => slot s baseTheme
    end.
Proof.
  rewrite (resolve_slot EmptyTheme baseTheme false s) at 1.
  assert (E : overlay_slot false s EmptyTheme = NewColorAttr)
    by (destruct s; reflexivity).
  rewrite E. apply o_undefined.
Qed.

Lemma resolved_Color_defined (theme baseTheme : ColorTheme)
  (forceBlack : bool) :
  (forall s, fallback s = None ->
     caColor (slot s baseTheme) <> colUndefined) ->
  forall s, caColor (slot s (resolve theme baseTheme forceBlack))
            <> colUndefined.
Proof.
  intros Hbase.
  assert (Hprim : forall s, fallback s = None ->
            caColor (slot s (resolve theme baseTheme forceBlack))
            <> colUndefined).
  { intros s Hs. rewrite resolve_slot, Hs.
    apply o_keeps_Color, Hbase, Hs. }
  assert (Hcomp : forall s p, fallback s = Some p ->
            caColor (slot p (resolve theme baseTheme forceBlack))
            <> colUndefined ->
            caColor (slot s (resolve theme baseTheme forceBlack))
            <> colUndefined).
  { intros s p Hs Hp. rewrite (resolve_slot _ _ _ s), Hs.
    now apply o_keeps_Color. }
  assert (Hpb : caColor (slot sPreviewBorder
                           (resolve theme baseTheme forceBlack))
                <> colUndefined)
    by (apply (Hcomp sPreviewBorder sBorder);
        [reflexivity | apply Hprim; reflexivity]).
  intros s. destruct (fallback s) as [p | ] eqn:Hs; [ | now apply Hprim].
  apply (Hcomp s p Hs).
  destruct s; try discriminate Hs; injection Hs as <-;
    try (apply Hprim; reflexivity); exact Hpb.
Qed.

Lemma builtin_base_defined (baseTheme : ColorTheme) :
  In baseTheme builtin ->
  forall s, fallback s = None ->
    caColor (slot s baseTheme) <> colUndefined.
Proof.
  intros Hin s Hs.
  destruct Hin as [<- | [<- | [<- | []]]];
    destruct s; try discriminate Hs; discriminate.
Qed.

(** When the base theme gives a color to every primitive slot, every
    slot of the resolved theme has a color, whatever the overlay leaves
    undefined. *)
Theorem resolved_colors_defined (theme baseTheme : ColorTheme)
  (forceBlack : bool) (s : Slot) :
  (forall s', fallback s' = None ->
     caColor (slot s' baseTheme) <> colUndefined) ->
  caColor (slot s (resolve theme baseTheme forceBlack)) <> colUndefined.
Proof. intros Hbase. now apply resolved_Color_defined. Qed.

Lemma pair_defined (fg0 bg0 : ColorAttr) :
  caColor fg0 <> colUndefined -> caColor bg0 <> colUndefined ->
  fg (pair fg0 bg0) <> colUndefined /\ bg (pair fg0 bg0) <> colUndefined.
Proof.
  intros Hf Hb. split; [exact Hf | ].
  unfold pair.
  destruct ((caColor fg0 =? colDefault)
            && (Z.land (caAttr fg0) Reverse >? 0));
    destruct (caBackgroundColor fg0 =? colDefault);
    destruct (caBackgroundColor fg0 =? colUndefined) eqn:E;
    simpl; try exact Hb; try discriminate; now apply Z.eqb_neq.
Qed.

Lemma initPalette_defined (theme : ColorTheme) :
  (forall s, caColor (slot s theme) <> colUndefined) ->
  forall p, In p (pairs (initPalette theme)) ->
    fg p <> colUndefined /\ bg p <> colUndefined.
Proof.
  intros H p Hin.
  pose proof (H sFg) as HFg. pose proof (H sBg) as HBg.
  pose proof (H sGutter) as HGutter. pose proof (H sDarkBg) as HDarkBg.
  pose proof (H sSelectedBg) as HSelectedBg.
  pose proof (H sPreviewBg) as HPreviewBg.
  unfold pairs, initPalette in Hin. cbv [In ColPrompt ColNormal ColInput
    ColDisabled ColMatch ColCursor ColCursorEmpty ColMarker ColSelected
    ColSelectedMatch ColCurrent ColCurrentMatch ColCurrentCursor
    ColCurrentCursorEmpty ColCurrentMarker ColCurrentSelectedEmpty
    ColSpinner ColInfo ColHeader ColSeparator ColScrollbar ColBorder
    ColPreview ColPreviewBorder ColBorderLabel ColPreviewLabel
    ColPreviewScrollbar ColPreviewSpinner] in Hin.
  repeat (destruct Hin as [<- | Hin];
    [ try (destruct (negb (caColor (SelectedBg theme)
                           =? caColor (Bg theme))));
      apply pair_defined; try assumption;
      first [ apply (H sPrompt) | apply (H sInput) | apply (H sDisabled)
            | apply (H sMatch) | apply (H sCursor) | apply (H sMarker)
            | apply (H sSelectedFg) | apply (H sSelectedMatch)
            | apply (H sCurrent) | apply (H sCurrentMatch)
            | apply (H sSpinner) | apply (H sInfo) | apply (H sHeader)
            | apply (H sSeparator) | apply (H sScrollbar)
            | apply (H sBorder) | apply (H sPreviewFg)
            | apply (H sPreviewBorder) | apply (H sBorderLabel)
            | apply (H sPreviewLabel) | apply (H sPreviewScrollbar) ]
    | ]).
  destruct Hin.
Qed.

(** With one of the three built-in base themes, no pair of the palette
    that initTheme stores has an undefined foreground or background,
    whatever the overlay and [forceBlack] are. *)
Theorem palette_defined (theme baseTheme : ColorTheme) (forceBlack : bool)
  (p : ColorPair) :
  In baseTheme builtin ->
  In p (pairs (snd (initTheme theme baseTheme forceBlack))) ->
  fg p <> colUndefined /\ bg p <> colUndefined.
Proof.
  intros Hbase Hin. rewrite initTheme_eq in Hin. cbv [snd] in Hin.
  apply (initPalette_defined (resolve theme baseTheme forceBlack));
    [ | exact Hin].
  apply resolved_Color_defined. now apply builtin_base_defined.
Qed.

End ThemeLaws.

(** ** Events, continued *)

Lemma nth_Int (t : EventType) :
  nth_error allEventTypes (Z.to_nat (Int t)) = Some t.
Proof. destruct t; reflexivity. Qed.

Lemma Int_inj (t1 t2 : EventType) : Int t1 = Int t2 -> t1 = t2.
Proof.
  intros H. pose proof (nth_Int t1) as H1. rewrite H, nth_Int in H1.
  congruence.
Qed.

(** The byte of a kind loses nothing: it is the kind's number, and the
    kind is found back at that place of the constant block. *)
Theorem Byte_faithful (t : EventType) :
  Byte t = Int t /\
  nth_error allEventTypes (Z.to_nat (Byte t)) = Some t.
Proof. destruct t; split; reflexivity. Qed.

Lemma runeToString_nonempty (r : Z) : runeToString r <> "".
Proof.
  unfold runeToString, encode3.
  destruct ((r <? 0) || (r >? MaxRune) || ((55296 <=? r) && (r <=? 57343)));
    [discriminate | ].
  destruct (r <=? 127); [discriminate | ].
  destruct (r <=? 2047); [discriminate | ].
  destruct (r <=? 65535); discriminate.
Qed.

Lemma KeyName_named (e : Event) :
  named_key (evType e) = true -> KeyName e = KeyName (AsEvent (evType e)).
Proof.
  destruct e as [t c m]. simpl evType. intros H.
  destruct t; try reflexivity; discriminate H.
Qed.

(** The mouse payload plays no part in naming or comparing: events of
    the same kind and character are equal once made comparable, and have
    the same key name. *)
Theorem KeyName_Comparable (e1 e2 : Event) :
  evType e1 = evType e2 -> evChar e1 = evChar e2 ->
  Comparable e1 = Comparable e2 /\ KeyName e1 = KeyName e2.
Proof.
  destruct e1 as [t1 c1 m1], e2 as [t2 c2 m2]. simpl.
  intros -> ->. split; reflexivity.
Qed.

(** A key name is empty exactly for the kinds from [Invalid] on. *)
Theorem KeyName_empty_iff (e : Event) :
  KeyName e = "" <-> Int (evType e) >= Int Invalid.
Proof.
  destruct e as [t c m]. simpl evType. split.
  - intros H.
    destruct (Z_lt_ge_dec (Int t) (Int Invalid)) as [Hlt | Hge];
      [exfalso | exact Hge].
    destruct (named_key t) eqn:N.
    + rewrite (KeyName_named (mkEvent t c m) N) in H. simpl evType in H.
      destruct t; try discriminate N; vm_compute in H; discriminate H.
    + destruct t; try discriminate N; try (simpl in Hlt; lia).
      * exact (runeToString_nonempty c H).
      * change (("alt-" ++ runeToString c)%string = "") in H.
        discriminate H.
      * change (("ctrl-alt-" ++ runeToString c)%string = "") in H.
        discriminate H.
  - intros H. unfold KeyName. simpl evType.
    apply Z.ge_le, Z.geb_le in H. now rewrite H.
Qed.

Lemma check_names_true : check_names = true.
Proof. vm_compute. reflexivity. Qed.

(** The keys that are named by their kind alone have pairwise distinct
    names: a key name tells the key. *)
Theorem KeyName_distinct (e1 e2 : Event) :
  named_key (evType e1) = true -> named_key (evType e2) = true ->
  KeyName e1 = KeyName e2 -> evType e1 = evType e2.
Proof.
  intros H1 H2 H.
  rewrite (KeyName_named e1 H1), (KeyName_named e2 H2) in H.
  pose proof check_names_true as C. unfold check_names in C.
  rewrite forallb_forall in C.
  specialize (C (evType e1) (allEventTypes_complete _)).
  rewrite forallb_forall in C.
  specialize (C (evType e2) (allEventTypes_complete _)).
  rewrite H1, H2, H, String.eqb_refl in C. simpl in C.
  apply Int_inj. now apply Z.eqb_eq.
Qed.

(** ** Borders *)

(** MakeBorderStyle records the shape it is given, and its eight glyphs
    are ASCII exactly when unicode is off: no style mixes the two. *)
Theorem MakeBorderStyle_ascii (s : BorderShape) (unicode : bool) :
  shape (MakeBorderStyle s unicode) = s /\
  forallb (fun g => g <? 128) (glyphs (MakeBorderStyle s unicode))
  = negb unicode /\
  existsb (fun g => g <? 128) (glyphs (MakeBorderStyle s unicode))
  = negb unicode.
Proof. destruct s, unicode; repeat split. Qed.

(** With unicode on, the shapes with glyphs of their own are the sharp,
    bold, block, thin block and double ones; every other shape, the
    one-sided ones and [BorderNone] included, gets the rounded glyphs. *)
Theorem MakeBorderStyle_rounded (s : BorderShape) :
  glyphs (MakeBorderStyle s true)
  = glyphs (MakeBorderStyle BorderRounded true)
  <-> ~ In s [BorderSharp; BorderBold; BorderBlock; BorderThinBlock;
              BorderDouble].
Proof.
  split.
  - intros H Hin. simpl in Hin.
    destruct Hin as [<- | [<- | [<- | [<- | [<- | []]]]]];
      discriminate H.
  - intros H. destruct s; try reflexivity; elim H; simpl; tauto.
Qed.

(** The edges a shape draws: all three of left, right and top for the
    seven box shapes (the zero value [BorderUndefined] among them) and
    for no other; left and right go together but for the two one-sided
    shapes. *)
Theorem border_edges (s : BorderShape) :
  (HasLeft s && HasRight s && HasTop s = true <->
   In s [BorderUndefined; BorderRounded; BorderSharp; BorderBold;
         BorderBlock; BorderThinBlock; BorderDouble]) /\
  (HasLeft s <> HasRight s <-> s = BorderLeft \/ s = BorderRight).
Proof.
  split; split.
  - destruct s; simpl; intros H; try discriminate H; tauto.
  - intros H. simpl in H.
    destruct H as [<- | [<- | [<- | [<- | [<- | [<- | [<- | []]]]]]]];
      reflexivity.
  - destruct s; simpl; intros H; try (now elim H); tauto.
  - intros [-> | ->]; discriminate.
Qed.

(** ** The further properties on inputs *)

Section LawsOnSpecBackend.
#[local] Existing Instance specBackend.

Lemma merge_assoc_witness :
  merge (merge (mkColorPair 1 2 1) (mkColorPair colDefault 5 8) colDefault)
    (mkColorPair 7 colDefault 64) colDefault
  = merge (mkColorPair 1 2 1)
      (merge (mkColorPair colDefault 5 8) (mkColorPair 7 colDefault 64)
         colDefault) colDefault.
Proof.
  apply (merge_assoc (mkColorPair 1 2 1) (mkColorPair colDefault 5 8)
           (mkColorPair 7 colDefault 64) colDefault).
  intros x y z. symmetry. apply Z.lor_assoc.
Defined.

Lemma merge_sentinel_unit_witness :
  merge (mkColorPair 1 2 8)
    (mkColorPair colUndefined colUndefined AttrUndefined) colUndefined
  = mkColorPair 1 2 8.
Proof.
  apply (merge_sentinel_unit (mkColorPair 1 2 8) colUndefined).
  intros a. apply Z.lor_0_r.
Defined.

Lemma HasBg_pair_default_reverse_witness :
  HasBg (pair (Current NoColorTheme) (DarkBg NoColorTheme)) = false.
Proof.
  apply (HasBg_pair_default_reverse (Current NoColorTheme)
           (DarkBg NoColorTheme)); reflexivity.
Defined.

Lemma overlay_wins_witness :
  caColor (slot sGutter
    (resolve (set_Gutter EmptyTheme
                (mkColorAttr colCyan AttrUndefined colUndefined))
       Dark256 true)) = colCyan.
Proof.
  destruct (overlay_wins
              (set_Gutter EmptyTheme
                 (mkColorAttr colCyan AttrUndefined colUndefined))
              Dark256 true sGutter) as (H & _).
  - right. discriminate.
  - apply H. discriminate.
Defined.

Lemma compound_falls_back_witness :
  slot sPreviewScrollbar (resolve EmptyTheme Light256 false)
  = slot sPreviewBorder (resolve EmptyTheme Light256 false).
Proof.
  apply (compound_falls_back EmptyTheme Light256 false
           sPreviewScrollbar sPreviewBorder); reflexivity.
Defined.

Lemma resolved_colors_defined_witness :
  True /\
  caColor (slot sSeparator (resolve EmptyTheme Default16 false))
  <> colUndefined.
Proof.
  split; [exact I | ].
  apply (resolved_colors_defined EmptyTheme Default16 false sSeparator).
  intros s' Hs'. destruct s'; try discriminate Hs'; discriminate.
Defined.

Lemma palette_defined_witness :
  fg (ColMarker (snd (initTheme EmptyTheme Default16 true)))
  <> colUndefined /\
  bg (ColMarker (snd (initTheme EmptyTheme Default16 true)))
  <> colUndefined.
Proof.
  apply (palette_defined EmptyTheme Default16 true).
  - left. reflexivity.
  - vm_compute. tauto.
Defined.

End LawsOnSpecBackend.

Lemma is24_below_witness :
  is24 colDefault = false /\ is24 255 = false.
Proof. split; apply is24_below; reflexivity. Defined.

Lemma HexToColor_range_witness :
  255 < 2 ^ 24 - 0x0f0000 < 2 ^ 25 /\
  2 ^ 24 - 0x0f0000 <> colDefault /\ 2 ^ 24 - 0x0f0000 <> colUndefined.
Proof. apply (HexToColor_range "#-f0000"). reflexivity. Defined.

Lemma HexToColor_is24_witness :
  is24 (packRGB 0x1a 0x2b 0x3c) = true /\
  IsDefault (packRGB 0x1a 0x2b 0x3c) = false.
Proof.
  apply (HexToColor_is24 "1" "a" "2" "B" "3" "c")%char;
    try discriminate; reflexivity.
Defined.

Lemma HexToColor_signed_witness :
  HexToColor "#+f0000" = Some (2 ^ 24 + 15 * 2 ^ 16) /\
  HexToColor "#-f0000" = Some (2 ^ 24 - 15 * 2 ^ 16) /\
  (0 < 15 -> is24 (2 ^ 24 - 15 * 2 ^ 16) = false).
Proof. apply (HexToColor_signed "#" "f" 15). reflexivity. Defined.

Lemma KeyName_Comparable_witness :
  Comparable (mkEvent LeftClick 0 (Some (mkMouseEvent 3 4 0 true true false false)))
  = Comparable (mkEvent LeftClick 0 None) /\
  KeyName (mkEvent LeftClick 0 (Some (mkMouseEvent 3 4 0 true true false false)))
  = KeyName (mkEvent LeftClick 0 None).
Proof.
  apply (KeyName_Comparable
           (mkEvent LeftClick 0
              (Some (mkMouseEvent 3 4 0 true true false false)))
           (mkEvent LeftClick 0 None)); reflexivity.
Defined.

Lemma KeyName_distinct_witness :
  evType (AsEvent CtrlM) = evType (mkEvent CtrlM 13 None).
Proof.
  apply (KeyName_distinct (AsEvent CtrlM) (mkEvent CtrlM 13 None));
    reflexivity.
Defined.
